(** * VibeCommerce backend (server.js, Express + Mongoose): a shallow embedding

    The backend keeps a product catalogue and one global cart in MongoDB and
    exposes five endpoints (GET /api/products, GET /api/cart, POST /api/cart,
    DELETE /api/cart/:id, POST /api/checkout) plus a startup seeder.

    Modelling choices.
    - JS numbers are IEEE binary64 numbers, modelled with the Standard
      Library's [spec_float] (prec 53, emax 1024); [+], [*] and [<] are
      [SFadd], [SFmul] and [SFltb].
    - [parseFloat(x.toFixed(2))] is modelled exactly as ECMAScript defines it:
      the integer [n] nearest to [100 x] (ties to the larger magnitude), then
      the binary64 number nearest to [n / 100].
    - Mongo ObjectIds are 96-bit numbers ([N]); a request string is cast to
      an ObjectId when it is 24 hexadecimal digits, and a failed cast raises a
      CastError (Mongoose's behaviour for filters on ObjectId paths).
    - Every awaited Mongoose call is one atomic store operation.  A handler is
      a program over these operations ([Prog]); running it sequentially gives
      the usual state/exception semantics, and interleaving the operations of
      several handlers models concurrent requests.
    - Store failures are injected by an oracle: each store operation consumes
      one boolean of [faults]; [true] makes the operation raise without
      effect, an exhausted oracle means the store works. *)

From Stdlib Require Import ZArith String Ascii Bool Lia.
From Stdlib Require Import Floats.SpecFloat.
From stdpp Require Import base list.

Open Scope string_scope.
Open Scope Z_scope.

(** ** Numbers *)

Definition num := spec_float.
Definition prec : Z := 53.
Definition emax : Z := 1024.

Definition fadd (x y : num) : num := SFadd prec emax x y.
Definition fmul (x y : num) : num := SFmul prec emax x y.
Definition fltb (x y : num) : bool := SFltb x y.
Definition fzero : num := S754_zero false.

(** the binary64 number nearest to [n / d] (ties to even), with sign [s] *)
Definition of_ratio (s : bool) (n d : positive) : num :=
  let '(mz, ez, lz) := SFdiv_core_binary prec emax (Zpos n) 0 (Zpos d) 0 in
  binary_round_aux prec emax s mz ez lz.

(** [1] = 2^52 * 2^-52 *)
Definition fone : num := S754_finite false 4503599627370496 (-52).

(** JS truthiness of a number: [0], [-0] and [NaN] are falsy *)
Definition num_truthy (x : num) : bool :=
  match x with
  | S754_zero _ | S754_nan => false
  | _ => true
  end.

(** [parseFloat(x.toFixed(2))] *)
Definition round2 (x : num) : num :=
  match x with
  | S754_zero _ => S754_zero false
  | S754_finite s m e =>
      let big :=
        if 0 <=? e then 10 ^ 21 <=? Zpos m * 2 ^ e
        else 10 ^ 21 * 2 ^ (- e) <=? Zpos m in
      if big then x
      else
        let n :=
          if 0 <=? e then Zpos m * 100 * 2 ^ e
          else (Zpos m * 100 + 2 ^ (- e - 1)) / 2 ^ (- e) in
        match n with
        | Zpos p => of_ratio s p 100
        | _ => S754_zero s
        end
  | _ => x
  end.

(** ** ObjectIds *)

Abbreviation oid := N (only parsing).

Definition hex_digit (c : ascii) : option N :=
  let k := N_of_ascii c in
  if (48 <=? k)%N && (k <=? 57)%N then Some (k - 48)%N
  else if (97 <=? k)%N && (k <=? 102)%N then Some (k - 87)%N
  else if (65 <=? k)%N && (k <=? 70)%N then Some (k - 55)%N
  else None.

Fixpoint parse_hex (s : string) (acc : N) : option N :=
  match s with
  | EmptyString => Some acc
  | String c s' =>
      match hex_digit c with
      | Some d => parse_hex s' (16 * acc + d)%N
      | None => None
      end
  end.

(** Mongoose's cast of a string to an ObjectId *)
Definition cast_oid (s : string) : option oid :=
  if (String.length s =? 24)%nat then parse_hex s 0%N else None.

(** [ObjectId.prototype.toString()]: 24 lowercase hexadecimal digits *)
Definition hex_char (d : N) : ascii :=
  if (d <? 10)%N then ascii_of_N (48 + d) else ascii_of_N (87 + d).

Fixpoint hex_digits (k : nat) (n : N) (acc : string) : string :=
  match k with
  | O => acc
  | S k' => hex_digits k' (n / 16)%N (String (hex_char (n mod 16)%N) acc)
  end.

Definition oid_hex (n : oid) : string := hex_digits 24 n "".

(** JS truthiness of a string: only [""] is falsy *)
Definition str_truthy (s : string) : bool :=
  match s with EmptyString => false | _ => true end.

(** ** Documents (productSchema, cartItemSchema) *)

Record Product := mkProduct {
  p_id : oid;
  p_name : string;
  p_price : num;
  p_image : string
}.

Record CartItem := mkCartItem {
  c_id : oid;
  c_product : oid;
  c_quantity : num
}.

(** a cart item after [.populate('product')]: the product or [null] *)
Record PopItem := mkPopItem {
  pi_id : oid;
  pi_product : option Product;
  pi_quantity : num
}.

Record OrderLine := mkOrderLine {
  ol_name : string;
  ol_quantity : num;
  ol_price : num
}.

Record Order := mkOrder {
  o_items : list OrderLine;
  o_total : num;
  o_orderId : oid;
  o_timestamp : N
}.

(** the two collections, the ObjectId generator and the clock *)
Record Db := mkDb {
  products : list Product;
  cart : list CartItem;
  fresh : N;
  clock : N
}.

Record World := mkWorld {
  db : Db;
  faults : list bool
}.

Inductive DbError := CastError | ValidationError | DocumentNotFound | DuplicateKey | StoreFault.

Inductive Body :=
| BProducts (ps : list Product)
| BCart (cartItems : list PopItem) (total : num)
| BItem (it : option PopItem)
| BRemoved (msg : string) (removedItem : CartItem)
| BReceipt (success : bool) (msg : string) (order : Order)
| BMessage (msg : string).

Record Resp := mkResp { status : N; body : Body }.

(** ** Store operations

    One constructor per awaited Mongoose call of server.js.  [NewObjectId],
    [NewCartItem] and [Now] are local (client-side id generation, document
    construction, [new Date()]) and never fail. *)

Inductive DbOp : Type -> Type :=
| CountProducts : DbOp N                                (* Product.countDocuments() *)
| InsertManyProducts : list (string * num * string) -> DbOp unit
                                                        (* Product.insertMany(docs) *)
| FindProducts : DbOp (list Product)                    (* Product.find({}) *)
| ProductFindById : string -> DbOp (option Product)     (* Product.findById(id) *)
| CartFindPopulated : DbOp (list PopItem)               (* CartItem.find({}).populate('product') *)
| CartFindOneByProduct : string -> DbOp (option CartItem)
                                                        (* CartItem.findOne({ product: id }) *)
| NewCartItem : string -> num -> DbOp CartItem          (* new CartItem({ product, quantity }) *)
| CartSave : bool -> CartItem -> DbOp unit              (* cartItem.save(); [true]: a new document *)
| CartFindByIdPopulated : oid -> DbOp (option PopItem)  (* CartItem.findById(id).populate('product') *)
| CartFindByIdAndDelete : string -> DbOp (option CartItem)
                                                        (* CartItem.findByIdAndDelete(id) *)
| CartDeleteMany : DbOp unit                            (* CartItem.deleteMany({}) *)
| NewObjectId : DbOp oid                                (* new mongoose.Types.ObjectId() *)
| Now : DbOp N.                                         (* new Date() *)

Definition lookup_product (ps : list Product) (i : oid) : option Product :=
  List.find (fun p => N.eqb (p_id p) i) ps.

Definition populate (ps : list Product) (c : CartItem) : PopItem :=
  mkPopItem (c_id c) (lookup_product ps (c_product c)) (c_quantity c).

Definition has_cart_id (i : oid) (c : CartItem) : bool := N.eqb (c_id c) i.

(** remove the first document with id [i] *)
Fixpoint remove_first (i : oid) (l : list CartItem) : option CartItem * list CartItem :=
  match l with
  | [] => (None, [])
  | c :: l' =>
      if has_cart_id i c then (Some c, l')
      else let '(r, l'') := remove_first i l' in (r, c :: l'')
  end.

(** [updateOne({ _id }, { $set: { quantity } })] on the first match *)
Fixpoint set_quantity (i : oid) (q : num) (l : list CartItem) : list CartItem :=
  match l with
  | [] => []
  | c :: l' =>
      if has_cart_id i c then mkCartItem (c_id c) (c_product c) q :: l'
      else c :: set_quantity i q l'
  end.

Fixpoint mk_products (i : N) (docs : list (string * num * string)) : list Product :=
  match docs with
  | [] => []
  | (n, pr, im) :: docs' => mkProduct i n pr im :: mk_products (i + 1)%N docs'
  end.

(** the [min: 1] validator of [quantity]: [v >= 1] *)
Definition quantity_valid (q : num) : bool := SFleb fone q.

Definition exec_op {B : Type} (o : DbOp B) (d : Db) : (B + DbError) * Db :=
  match o in DbOp B return (B + DbError) * Db with
  | CountProducts => (inl (N.of_nat (length (products d))), d)
  | InsertManyProducts docs =>
      (inl tt, mkDb (products d ++ mk_products (fresh d) docs) (cart d)
                    (fresh d + N.of_nat (length docs)) (clock d))
  | FindProducts => (inl (products d), d)
  | ProductFindById s =>
      match cast_oid s with
      | None => (inr CastError, d)
      | Some i => (inl (lookup_product (products d) i), d)
      end
  | CartFindPopulated => (inl (map (populate (products d)) (cart d)), d)
  | CartFindOneByProduct s =>
      match cast_oid s with
      | None => (inr CastError, d)
      | Some i => (inl (List.find (fun c => N.eqb (c_product c) i) (cart d)), d)
      end
  | NewCartItem s q =>
      match cast_oid s with
      | None => (inr ValidationError, d)
      | Some i => (inl (mkCartItem (fresh d) i q), mkDb (products d) (cart d) (fresh d + 1) (clock d))
      end
  | CartSave is_new c =>
      if negb (quantity_valid (c_quantity c)) then (inr ValidationError, d)
      else if is_new then
        if existsb (has_cart_id (c_id c)) (cart d) then (inr DuplicateKey, d)
        else (inl tt, mkDb (products d) (cart d ++ [c]) (fresh d) (clock d))
      else if existsb (has_cart_id (c_id c)) (cart d) then
        (inl tt, mkDb (products d) (set_quantity (c_id c) (c_quantity c) (cart d)) (fresh d) (clock d))
      else (inr DocumentNotFound, d)
  | CartFindByIdPopulated i =>
      (inl (option_map (populate (products d)) (List.find (has_cart_id i) (cart d))), d)
  | CartFindByIdAndDelete s =>
      match cast_oid s with
      | None => (inr CastError, d)
      | Some i =>
          let '(r, l) := remove_first i (cart d) in
          (inl r, mkDb (products d) l (fresh d) (clock d))
      end
  | CartDeleteMany => (inl tt, mkDb (products d) [] (fresh d) (clock d))
  | NewObjectId => (inl (fresh d), mkDb (products d) (cart d) (fresh d + 1) (clock d))
  | Now => (inl (clock d), d)
  end.

Definition is_local {B : Type} (o : DbOp B) : bool :=
  match o with
  | NewCartItem _ _ | NewObjectId | Now => true
  | _ => false
  end.

(** one operation against the world: a store operation first consults the
    fault oracle *)
Definition exec {B : Type} (o : DbOp B) (w : World) : (B + DbError) * World :=
  if is_local o then
    let '(r, d') := exec_op o (db w) in (r, mkWorld d' (faults w))
  else
    match faults w with
    | true :: fs => (inr StoreFault, mkWorld (db w) fs)
    | false :: fs => let '(r, d') := exec_op o (db w) in (r, mkWorld d' fs)
    | [] => let '(r, d') := exec_op o (db w) in (r, mkWorld d' [])
    end.

(** ** Handler programs *)

Inductive Prog (A : Type) : Type :=
| Ret (a : A)
| Throw (e : DbError)
| Call {B : Type} (o : DbOp B) (k : B + DbError -> Prog A).

Arguments Ret {A} a.
Arguments Throw {A} e.
Arguments Call {A B} o k.

Fixpoint prog_bind {A B : Type} (f : A -> Prog B) (p : Prog A) : Prog B :=
  match p with
  | Ret a => f a
  | Throw e => Throw e
  | Call o k => Call o (fun r => prog_bind f (k r))
  end.

#[global] Instance prog_ret : MRet Prog := @Ret.
#[global] Instance prog_mbind : MBind Prog := @prog_bind.

(** [await op]: a failed operation throws *)
Definition call {B : Type} (o : DbOp B) : Prog B :=
  Call o (fun r => match r with inl b => Ret b | inr e => Throw e end).

(** [try { p } catch (err) { h }] *)
Fixpoint catch {A : Type} (p : Prog A) (h : DbError -> Prog A) : Prog A :=
  match p with
  | Ret a => Ret a
  | Throw e => h e
  | Call o k => Call o (fun r => catch (k r) h)
  end.

Fixpoint run {A : Type} (p : Prog A) (w : World) : (A + DbError) * World :=
  match p with
  | Ret a => (inl a, w)
  | Throw e => (inr e, w)
  | Call o k => let '(r, w') := exec o w in run (k r) w'
  end.

Definition msg (code : N) (m : string) : Resp := mkResp code (BMessage m).

(** the [cartItems.reduce(...)] of GET /api/cart and POST /api/checkout *)
Definition cart_total (cartItems : list PopItem) : num :=
  fold_left (fun acc item =>
               match pi_product item with
               | Some p => fadd acc (fmul (p_price p) (pi_quantity item))
               | None => acc
               end) cartItems fzero.

(** GET /api/products *)
Definition get_products : Prog Resp :=
  catch (ps ← call FindProducts; mret (mkResp 200 (BProducts ps)))
        (fun _ => mret (msg 500 "Server error while fetching products.")).

(** GET /api/cart *)
Definition get_cart : Prog Resp :=
  catch (cartItems ← call CartFindPopulated;
         let total := cart_total cartItems in
         mret (mkResp 200 (BCart cartItems (round2 total))))
        (fun _ => mret (msg 500 "Server error while fetching cart.")).

Definition invalid_input : Resp :=
  msg 400 "Invalid input. Product ID and quantity > 0 required.".

(** POST /api/cart; a missing field of the JSON body is [None] *)
Definition post_cart (productId : option string) (quantity : option num) : Prog Resp :=
  match productId, quantity with
  | Some pid, Some q =>
      if negb (str_truthy pid) || negb (num_truthy q) || fltb q fone then mret invalid_input
      else
        catch
          (found ← call (CartFindOneByProduct pid);
           r ← match found with
               | Some cartItem =>
                   let cartItem' := mkCartItem (c_id cartItem) (c_product cartItem) q in
                   call (CartSave false cartItem');;
                   mret (inl cartItem')
               | None =>
                   product ← call (ProductFindById pid);
                   match product with
                   | None => mret (inr (msg 404 "Product not found."))
                   | Some _ =>
                       cartItem ← call (NewCartItem pid q);
                       call (CartSave true cartItem);;
                       mret (inl cartItem)
                   end
               end;
           match r with
           | inr early => mret early
           | inl cartItem =>
               populatedItem ← call (CartFindByIdPopulated (c_id cartItem));
               mret (mkResp 201 (BItem populatedItem))
           end)
          (fun _ => mret (msg 500 "Server error while adding to cart."))
  | _, _ => mret invalid_input
  end.

(** DELETE /api/cart/:id *)
Definition delete_item (id : string) : Prog Resp :=
  catch (deletedItem ← call (CartFindByIdAndDelete id);
         match deletedItem with
         | None => mret (msg 404 "Cart item not found.")
         | Some it => mret (mkResp 200 (BRemoved "Item removed from cart." it))
         end)
        (fun _ => mret (msg 500 "Server error while removing from cart.")).

Definition order_line (item : PopItem) : OrderLine :=
  match pi_product item with
  | Some p => mkOrderLine (p_name p) (pi_quantity item) (p_price p)
  | None => mkOrderLine "Unknown Item" (pi_quantity item) fzero
  end.

(** POST /api/checkout *)
Definition checkout : Prog Resp :=
  catch (cartItems ← call CartFindPopulated;
         let total := cart_total cartItems in
         call CartDeleteMany;;
         orderId ← call NewObjectId;
         timestamp ← call Now;
         mret (mkResp 200 (BReceipt true "Checkout successful! Thank you for your order."
                 (mkOrder (map order_line cartItems) (round2 total) orderId timestamp))))
        (fun _ => mret (msg 500 "Server error during checkout.")).

Definition MOCK_PRODUCTS : list (string * num * string) :=
  [("Classic Vibe Tee", of_ratio false 2500 100, "https://placehold.co/400x400/2D3748/E2E8F0?text=Vibe+Tee");
   ("Retro Vibe Hoodie", of_ratio false 5500 100, "https://placehold.co/400x400/4A5568/E2E8F0?text=Vibe+Hoodie");
   ("Vibe Snapback Cap", of_ratio false 1850 100, "https://placehold.co/400x400/718096/E2E8F0?text=Vibe+Cap");
   ("Aesthetic Vibe Mug", of_ratio false 1299 100, "https://placehold.co/400x400/2D3748/E2E8F0?text=Vibe+Mug");
   ("Vibe-On-The-Go Tumbler", of_ratio false 2200 100, "https://placehold.co/400x400/4A5568/E2E8F0?text=Vibe+Tumbler");
   ("Minimalist Vibe Print", of_ratio false 3000 100, "https://placehold.co/400x400/718096/E2E8F0?text=Vibe+Print")].

(** seedDatabase() *)
Definition seedDatabase : Prog unit :=
  catch (productCount ← call CountProducts;
         if N.eqb productCount 0 then call (InsertManyProducts MOCK_PRODUCTS)
         else mret tt)
        (fun _ => mret tt).

Inductive Request :=
| GetProducts
| GetCart
| PostCart (productId : option string) (quantity : option num)
| DeleteCartItem (id : string)
| PostCheckout.

Definition handle (r : Request) : Prog Resp :=
  match r with
  | GetProducts => get_products
  | GetCart => get_cart
  | PostCart pid q => post_cart pid q
  | DeleteCartItem id => delete_item id
  | PostCheckout => checkout
  end.

(** requests served one after the other *)
Fixpoint serve (w : World) (rs : list Request) : World :=
  match rs with
  | [] => w
  | r :: rs' => serve (snd (run (handle r) w)) rs'
  end.

(** ** Concurrent requests: interleaving at the awaits *)

(** run the next operation of a handler, if it has one *)
Definition step {A : Type} (p : Prog A) (w : World) : Prog A * World :=
  match p with
  | Call o k => let '(r, w') := exec o w in (k r, w')
  | _ => (p, w)
  end.

(** the schedule lists, for each step, the handler that runs its next operation *)
Fixpoint run_sched {A : Type} (sched : list nat) (ps : list (Prog A)) (w : World)
  : list (Prog A) * World :=
  match sched with
  | [] => (ps, w)
  | i :: sched' =>
      match ps !! i with
      | Some p => let '(p', w') := step p w in run_sched sched' (<[i := p']> ps) w'
      | None => run_sched sched' ps w
      end
  end.

(** ** The frontend (src/frontend/src/App.jsx) *)

(** the React state of [App] *)
Record Client := mkClient {
  cl_products : Body;          (* products: the body of GET /api/products, [[]] at first *)
  cl_cart : option Body;       (* cart: [null] at first, then a body of GET /api/cart *)
  cl_loading : bool;           (* loading *)
  cl_error : option string;    (* error *)
  cl_cartOpen : bool;          (* isCartOpen *)
  cl_checkoutOpen : bool;      (* isCheckoutModalOpen *)
  cl_alerts : list string      (* the messages passed to [alert], latest first *)
}.

Definition initial_client : Client := mkClient (BProducts []) None true None false false [].

Definition setProducts (b : Body) (c : Client) : Client :=
  mkClient b (cl_cart c) (cl_loading c) (cl_error c) (cl_cartOpen c) (cl_checkoutOpen c) (cl_alerts c).
Definition setCart (b : option Body) (c : Client) : Client :=
  mkClient (cl_products c) b (cl_loading c) (cl_error c) (cl_cartOpen c) (cl_checkoutOpen c) (cl_alerts c).
Definition setLoading (l : bool) (c : Client) : Client :=
  mkClient (cl_products c) (cl_cart c) l (cl_error c) (cl_cartOpen c) (cl_checkoutOpen c) (cl_alerts c).
Definition setError (e : option string) (c : Client) : Client :=
  mkClient (cl_products c) (cl_cart c) (cl_loading c) e (cl_cartOpen c) (cl_checkoutOpen c) (cl_alerts c).
Definition setIsCartOpen (o : bool) (c : Client) : Client :=
  mkClient (cl_products c) (cl_cart c) (cl_loading c) (cl_error c) o (cl_checkoutOpen c) (cl_alerts c).
Definition setIsCheckoutModalOpen (o : bool) (c : Client) : Client :=
  mkClient (cl_products c) (cl_cart c) (cl_loading c) (cl_error c) (cl_cartOpen c) o (cl_alerts c).
Definition alert (m : string) (c : Client) : Client :=
  mkClient (cl_products c) (cl_cart c) (cl_loading c) (cl_error c) (cl_cartOpen c) (cl_checkoutOpen c)
           (m :: cl_alerts c).

(** axios resolves on a 2xx status and rejects otherwise *)
Definition axios_ok (r : Resp) : bool := (200 <=? status r)%N && (status r <? 300)%N.

(** [await apiClient.<method>(...)]: the server serves the request; [None] is a
    rejected promise.  JSON carries the body unchanged (ObjectIds travel as
    their hexadecimal strings, [oid_hex]).  A handler never leaves an error
    uncaught; if one did, Express would send no response and the request
    would fail, which is a rejection too. *)
Definition api (r : Request) (w : World) : option Body * World :=
  let '(res, w') := run (handle r) w in
  match res with
  | inl resp => (if axios_ok resp then Some (body resp) else None, w')
  | inr _ => (None, w')
  end.

(** [cart.cartItems]; [None] when [cart] is [null] or has no [cartItems] (the
    [.find] or [.length] on it throws a TypeError) *)
Definition cart_items (b : option Body) : option (list PopItem) :=
  match b with Some (BCart items _) => Some items | _ => None end.

(** fetchInitialData: [Promise.all] of GET /api/products and GET /api/cart *)
Definition fetchInitialData (c : Client) (w : World) : Client * World :=
  let c := setError None (setLoading true c) in
  let '(productsResponse, w1) := api GetProducts w in
  let '(cartResponse, w2) := api GetCart w1 in
  match productsResponse, cartResponse with
  | Some ps, Some cr => (setLoading false (setCart (Some cr) (setProducts ps c)), w2)
  | _, _ => (setLoading false (setError (Some "Failed to load store. Please check your connection.") c), w2)
  end.

(** [cart.cartItems.find(item => item.product._id === productId)]; [None] is
    the TypeError thrown when an item before the match has [product: null] *)
Fixpoint find_by_product_id (productId : string) (l : list PopItem) : option (option PopItem) :=
  match l with
  | [] => Some None
  | item :: l' =>
      match pi_product item with
      | None => None
      | Some p =>
          if String.eqb (oid_hex (p_id p)) productId then Some (Some item)
          else find_by_product_id productId l'
      end
  end.

(** handleAddToCart(productId, quantity) *)
Definition handleAddToCart (productId : string) (quantity : num) (c : Client) (w : World)
  : Client * World :=
  let fail w := (setError (Some "Failed to add item to cart.") c, w) in
  match cart_items (cl_cart c) with
  | None => fail w
  | Some items =>
      match find_by_product_id productId items with
      | None => fail w
      | Some existingItem =>
          let newQuantity :=
            match existingItem with
            | Some it => fadd (pi_quantity it) quantity
            | None => quantity
            end in
          match api (PostCart (Some productId) (Some newQuantity)) w with
          | (None, w1) => fail w1
          | (Some _, w1) =>
              match api GetCart w1 with
              | (None, w2) => fail w2
              | (Some cartData, w2) => (setIsCartOpen true (setCart (Some cartData) c), w2)
              end
          end
      end
  end.

(** handleRemoveFromCart(cartItemId) *)
Definition handleRemoveFromCart (cartItemId : string) (c : Client) (w : World) : Client * World :=
  let fail w := (setError (Some "Failed to remove item.") c, w) in
  match api (DeleteCartItem cartItemId) w with
  | (None, w1) => fail w1
  | (Some _, w1) =>
      match api GetCart w1 with
      | (None, w2) => fail w2
      | (Some cartData, w2) => (setCart (Some cartData) c, w2)
      end
  end.

(** handleUpdateQuantity(cartItemId, newQuantity); below 1 it hands over to
    handleRemoveFromCart (not awaited; nothing else runs in between here) *)
Definition handleUpdateQuantity (cartItemId : string) (newQuantity : num) (c : Client) (w : World)
  : Client * World :=
  if fltb newQuantity fone then handleRemoveFromCart cartItemId c w
  else
    let fail w := (setError (Some "Failed to update cart.") c, w) in
    match cart_items (cl_cart c) with
    | None => fail w
    | Some items =>
        match List.find (fun item => String.eqb (oid_hex (pi_id item)) cartItemId) items with
        | None => (c, w)
        | Some itemToUpdate =>
            match pi_product itemToUpdate with
            | None => fail w
            | Some p =>
                match api (PostCart (Some (oid_hex (p_id p))) (Some newQuantity)) w with
                | (None, w1) => fail w1
                | (Some _, w1) =>
                    match api GetCart w1 with
                    | (None, w2) => fail w2
                    | (Some cartData, w2) => (setCart (Some cartData) c, w2)
                    end
                end
            end
        end
    end.

(** CartItem's minus button: [onUpdateQuantity(item._id, item.quantity - 1)] *)
Definition decreaseItem (item : PopItem) : Client -> World -> Client * World :=
  handleUpdateQuantity (oid_hex (pi_id item)) (SFsub prec emax (pi_quantity item) fone).

(** handleCheckoutSubmit(formData); the body it posts is ignored by the server *)
Definition handleCheckoutSubmit (c : Client) (w : World) : Client * World :=
  match api PostCheckout w with
  | (None, w1) => (setError (Some "Checkout failed. Please try again.") c, w1)
  | (Some receipt, w1) =>
      let c' := setCart (Some (BCart [] fzero)) (setIsCheckoutModalOpen false c) in
      match receipt with
      | BReceipt _ _ order =>
          (alert ("Checkout Successful! Order ID: " ++ oid_hex (o_orderId order)) c', w1)
      | _ => (setError (Some "Checkout failed. Please try again.") c', w1)
      end
  end.

Inductive Action :=
| FetchInitialData
| AddToCart (productId : string) (quantity : num)
| UpdateQuantity (cartItemId : string) (newQuantity : num)
| RemoveFromCart (cartItemId : string)
| CheckoutSubmit.

Definition act (a : Action) : Client -> World -> Client * World :=
  match a with
  | FetchInitialData => fetchInitialData
  | AddToCart pid q => handleAddToCart pid q
  | UpdateQuantity id q => handleUpdateQuantity id q
  | RemoveFromCart id => handleRemoveFromCart id
  | CheckoutSubmit => handleCheckoutSubmit
  end.

(** the body GET /api/cart answers on a store *)
Definition cart_view (d : Db) : Body :=
  BCart (map (populate (products d)) (cart d))
        (round2 (cart_total (map (populate (products d)) (cart d)))).

(** the client shows the server's cart *)
Definition in_sync (c : Client) (d : Db) : Prop := cl_cart c = Some (cart_view d).

(** ** Readings of the specification used in the statements *)

(** [price * quantity] of the line items whose product resolves, in cart order *)
Fixpoint resolvable_prices (ps : list Product) (l : list CartItem) : list num :=
  match l with
  | [] => []
  | c :: l' =>
      match lookup_product ps (c_product c) with
      | Some p => fmul (p_price p) (c_quantity c) :: resolvable_prices ps l'
      | None => resolvable_prices ps l'
      end
  end.

(** their sum, from [0], in binary64 arithmetic *)
Definition resolvable_sum (d : Db) : num :=
  fold_left fadd (resolvable_prices (products d) (cart d)) fzero.

(** a store that does not fail *)
Definition reliable (d : Db) : World := mkWorld d [].

(** at most one line item per product *)
Definition one_item_per_product (d : Db) : Prop := List.NoDup (map c_product (cart d)).

(** MongoDB's unique [_id] index, and ids below the generator's next value *)
Definition ids_ok (d : Db) : Prop :=
  List.NoDup (map c_id (cart d)) /\ Forall (fun c => (c_id c < fresh d)%N) (cart d).

(** the populated line items that show product [i] *)
Definition item_for (i : oid) (it : PopItem) : bool :=
  match pi_product it with Some p => N.eqb (p_id p) i | None => false end.

(** ** Generic lemmas on programs *)

Lemma run_bind {A B : Type} (p : Prog A) (f : A -> Prog B) (w : World) :
  run (p ≫= f) w =
  match run p w with
  | (inl a, w') => run (f a) w'
  | (inr e, w') => (inr e, w')
  end.
Proof.
  revert w; induction p as [a|e|C o k IH]; intros w; simpl; try reflexivity.
  destruct (exec o w) as [r w']. apply IH.
Qed.

Lemma run_catch {A : Type} (p : Prog A) (h : DbError -> Prog A) (w : World) :
  run (catch p h) w =
  match run p w with
  | (inl a, w') => (inl a, w')
  | (inr e, w') => run (h e) w'
  end.
Proof.
  revert w; induction p as [a|e|C o k IH]; intros w; simpl; try reflexivity.
  destruct (exec o w) as [r w']. apply IH.
Qed.

Lemma run_get_cart (d : Db) :
  run get_cart (reliable d) =
  (inl (mkResp 200 (BCart (map (populate (products d)) (cart d))
                          (round2 (cart_total (map (populate (products d)) (cart d)))))),
   reliable d).
Proof. reflexivity. Qed.

Lemma cart_total_fold (ps : list Product) (l : list CartItem) (acc : num) :
  fold_left (fun acc item =>
               match pi_product item with
               | Some p => fadd acc (fmul (p_price p) (pi_quantity item))
               | None => acc
               end) (map (populate ps) l) acc
  = fold_left fadd (resolvable_prices ps l) acc.
Proof.
  revert acc; induction l as [|c l IH]; intros acc; simpl; [reflexivity|].
  destruct (lookup_product ps (c_product c)); simpl; apply IH.
Qed.

Lemma cart_total_resolvable (d : Db) :
  cart_total (map (populate (products d)) (cart d)) = resolvable_sum d.
Proof. apply cart_total_fold. Qed.

Lemma populate_listed (ps : list Product) (l : list CartItem) :
  Forall2 (fun c it => pi_id it = c_id c /\ pi_quantity it = c_quantity c /\
                       pi_product it = lookup_product ps (c_product c))
          l (map (populate ps) l).
Proof. induction l; simpl; constructor; auto. Qed.


(** C1: GET /api/cart answers the sum, in cart order, of price × quantity of
    the line items whose product resolves, rounded to 2 decimals by
    [parseFloat(total.toFixed(2))]; every line item is listed, in order, with
    its product or [null] when it does not resolve. *)
Theorem get_cart_total_and_items (d : Db) :
  exists items,
    run get_cart (reliable d) =
      (inl (mkResp 200 (BCart items (round2 (resolvable_sum d)))), reliable d) /\
    Forall2 (fun c it => pi_id it = c_id c /\ pi_quantity it = c_quantity c /\
                         pi_product it = lookup_product (products d) (c_product c))
            (cart d) items.
Proof.
  exists (map (populate (products d)) (cart d)). split.
  - rewrite run_get_cart, cart_total_resolvable. reflexivity.
  - apply populate_listed.
Qed.

(** ** Checkout *)

Definition checkout_ok : string := "Checkout successful! Thank you for your order.".

Lemma run_checkout (d : Db) :
  run checkout (reliable d) =
  (inl (mkResp 200 (BReceipt true checkout_ok
          (mkOrder (map order_line (map (populate (products d)) (cart d)))
                   (round2 (cart_total (map (populate (products d)) (cart d))))
                   (fresh d) (clock d)))),
   reliable (mkDb (products d) [] (fresh d + 1) (clock d))).
Proof. reflexivity. Qed.

(** C3: the receipt's total is the total GET /api/cart answers on the same
    cart, and GET /api/cart after the checkout answers an empty cart with
    total 0. *)
Theorem checkout_total_then_empty (d : Db) :
  exists items total order w',
    run get_cart (reliable d) = (inl (mkResp 200 (BCart items total)), reliable d) /\
    run checkout (reliable d) = (inl (mkResp 200 (BReceipt true checkout_ok order)), w') /\
    o_total order = total /\
    fst (run get_cart w') = inl (mkResp 200 (BCart [] fzero)).
Proof.
  do 4 eexists. split; [apply run_get_cart|]. split; [apply run_checkout|].
  split; reflexivity.
Qed.

(** C8: checkout of an empty cart succeeds with a receipt of total 0 and no
    order lines. *)
Theorem checkout_empty_cart (d : Db) (Hempty : cart d = []) :
  exists order w',
    run checkout (reliable d) = (inl (mkResp 200 (BReceipt true checkout_ok order)), w') /\
    o_items order = [] /\ o_total order = fzero.
Proof.
  do 2 eexists. split; [apply run_checkout|]. rewrite Hempty. split; reflexivity.
Qed.

Lemma checkout_empty_cart_witness :
  cart (mkDb [] [] 1 0) = [] /\
  exists order w',
    run checkout (reliable (mkDb [] [] 1 0)) =
      (inl (mkResp 200 (BReceipt true checkout_ok order)), w') /\
    o_items order = [] /\ o_total order = fzero.
Proof. split; [reflexivity | apply (checkout_empty_cart (mkDb [] [] 1 0)); reflexivity]. Defined.

(** a cart of one 12.99 mug *)
Definition one_mug : Db :=
  mkDb [mkProduct 1 "Aesthetic Vibe Mug" (of_ratio false 1299 100) ""]
       [mkCartItem 2 1 fone] 3 0.

(** C4 as stated fails: when the [deleteMany] after the cart read fails, the
    response is a server error, not the receipt. *)
Lemma checkout_clear_failure_no_receipt :
  ~ exists code success m order,
      fst (run checkout (mkWorld one_mug [false; true])) =
        inl (mkResp code (BReceipt success m order)).
Proof. intros (code & success & m & order & H). vm_compute in H. discriminate H. Qed.

(** C4, as the code does it: a failure of clearing the cart, after a
    successful read, is caught by the handler's try/catch and answered with a
    500 server error; no receipt is returned. *)
Theorem checkout_clear_failure_500 (d : Db) (fs : list bool) :
  fst (run checkout (mkWorld d (false :: true :: fs))) =
    inl (msg 500 "Server error during checkout.").
Proof. reflexivity. Qed.

(** ** Seeding *)

Definition seeded (d : Db) : Db :=
  match products d with
  | [] => mkDb (mk_products (fresh d) MOCK_PRODUCTS) (cart d) (fresh d + 6) (clock d)
  | _ => d
  end.

Lemma run_seed (d : Db) : snd (run seedDatabase (reliable d)) = reliable (seeded d).
Proof.
  destruct d as [ps c f t]; unfold seeded; simpl.
  destruct ps; reflexivity.
Qed.

(** C9: seeding inserts the mock products when the catalogue is empty and
    changes nothing otherwise; seeding twice is seeding once. *)
Theorem seed_idempotent (d : Db) :
  snd (run seedDatabase (reliable d)) =
    reliable (match products d with
              | [] => mkDb (mk_products (fresh d) MOCK_PRODUCTS) (cart d) (fresh d + 6) (clock d)
              | _ => d
              end) /\
  snd (run seedDatabase (snd (run seedDatabase (reliable d)))) =
    snd (run seedDatabase (reliable d)).
Proof.
  split; [apply run_seed|].
  rewrite !run_seed. f_equal.
  destruct d as [[|p ps] c f t]; reflexivity.
Qed.

(** ** Lemmas on the cart operations *)

Arguments cast_oid : simpl never.
Arguments quantity_valid : simpl never.

Lemma ge1_passes_checks (q : num) :
  SFleb fone q = true -> num_truthy q = true /\ fltb q fone = false.
Proof.
  unfold fone, fltb, SFleb, SFltb, num_truthy.
  (* keep the mantissa of 1 abstract: reduction on the literal is slow *)
  generalize 4503599627370496%positive as k; generalize (-52) as e1; intros e1 k.
  destruct q as [s|s| |s m e]; unfold SFcompare; try (intro H; discriminate H).
  - destruct s; [intro H; discriminate H|]; auto.
  - destruct s; [intro H; discriminate H|]. intros H. split; [reflexivity|].
    rewrite Z.compare_antisym.
    destruct (Z.compare e1 e); simpl CompOpp in *; try discriminate; try reflexivity.
    change (Pos.compare_cont Eq m k) with (Pos.compare m k).
    rewrite Pos.compare_antisym.
    change (Pos.compare_cont Eq k m) with (Pos.compare k m) in H.
    destruct (Pos.compare k m); simpl in *; congruence.
Qed.

Lemma cast_truthy (s : string) (i : oid) : cast_oid s = Some i -> str_truthy s = true.
Proof. destruct s; [discriminate | reflexivity]. Qed.

Lemma set_quantity_ids (j : oid) (q : num) (l : list CartItem) :
  map c_id (set_quantity j q l) = map c_id l.
Proof.
  induction l as [|c l IH]; simpl; [reflexivity|].
  destruct (has_cart_id j c); simpl; [reflexivity | now rewrite IH].
Qed.

Lemma set_quantity_products (j : oid) (q : num) (l : list CartItem) :
  map c_product (set_quantity j q l) = map c_product l.
Proof.
  induction l as [|c l IH]; simpl; [reflexivity|].
  destruct (has_cart_id j c); simpl; [reflexivity | now rewrite IH].
Qed.

Lemma remove_first_in (i : oid) (l : list CartItem) (x : CartItem) :
  In x (snd (remove_first i l)) -> In x l.
Proof.
  induction l as [|c l IH]; simpl; [tauto|].
  destruct (has_cart_id i c); simpl; [tauto|].
  destruct (remove_first i l) as [r l''] eqn:E; simpl in *. intuition.
Qed.

Lemma remove_first_nodup {B : Type} (f : CartItem -> B) (i : oid) (l : list CartItem) :
  List.NoDup (map f l) -> List.NoDup (map f (snd (remove_first i l))).
Proof.
  induction l as [|c l IH]; simpl; [tauto|].
  intros Hnd. apply List.NoDup_cons_iff in Hnd as [Hn Hnd].
  destruct (has_cart_id i c); simpl; [exact Hnd|].
  destruct (remove_first i l) as [r l''] eqn:E; simpl in *.
  constructor; [|now apply IH].
  intros Hin. apply Hn. apply in_map_iff in Hin as (y & Hy & Hin).
  apply in_map_iff. exists y. split; [exact Hy|].
  apply (remove_first_in i). rewrite E. exact Hin.
Qed.

Lemma append_new_product (l : list CartItem) (j i : oid) (q : num) :
  List.find (fun c => N.eqb (c_product c) i) l = None ->
  List.NoDup (map c_product l) -> List.NoDup (map c_product (l ++ [mkCartItem j i q])).
Proof.
  intros Hf Hnd. rewrite map_app. simpl.
  apply List.NoDup_app; [exact Hnd | constructor; [tauto|constructor] |].
  intros x Hx Hx'. destruct Hx' as [<-|[]].
  apply in_map_iff in Hx as (y & Hy & Hin).
  pose proof (find_none _ _ Hf y Hin) as Hn. simpl in Hn.
  rewrite Hy, N.eqb_refl in Hn. discriminate.
Qed.

(** case analysis on a running handler: store faults, casts, lookups and
    validation outcomes *)
Ltac run_cases :=
  repeat (unfold exec in *; cbn -[cast_oid quantity_valid] in *;
          match goal with
          | |- context [remove_first ?i ?l] => destruct (remove_first i l) eqn:?
          | |- context [match ?x with _ => _ end] =>
              lazymatch type of x with
              | prod _ _ => fail
              | _ => destruct x eqn:?
              end
          | |- context [if ?x then _ else _] => destruct x eqn:?
          end);
  cbn -[cast_oid quantity_valid] in *; simplify_eq.

Ltac unfold_prog := unfold mbind, prog_mbind, mret, prog_ret.

Lemma post_cart_preserves (w : World) (pid : option string) (q : option num) :
  one_item_per_product (db w) ->
  one_item_per_product (db (snd (run (post_cart pid q) w))).
Proof.
  destruct w as [d fs]. unfold one_item_per_product. simpl. intros Hinv.
  unfold post_cart. destruct pid as [pid|]; [|exact Hinv].
  destruct q as [q|]; [|exact Hinv].
  destruct (negb (str_truthy pid) || negb (num_truthy q) || fltb q fone); [exact Hinv|].
  unfold_prog. run_cases.
  all: first [ exact Hinv
             | rewrite set_quantity_products; exact Hinv
             | eapply append_new_product; [eassumption | exact Hinv] ].
Qed.

Lemma handle_preserves (r : Request) (w : World) :
  one_item_per_product (db w) ->
  one_item_per_product (db (snd (run (handle r) w))).
Proof.
  destruct r as [| |pid q|id|]; [| | apply post_cart_preserves | |];
    destruct w as [d fs]; unfold one_item_per_product; simpl; intros Hinv;
    unfold get_products, get_cart, delete_item, checkout; unfold_prog; run_cases;
    try exact Hinv; try constructor.
  all: match goal with
       | E : remove_first ?i ?l = (_, ?l') |- _ =>
           pose proof (remove_first_nodup c_product i l Hinv) as H; rewrite E in H; exact H
       end.
Qed.

Lemma serve_preserves (w : World) (rs : list Request) :
  one_item_per_product (db w) -> one_item_per_product (db (serve w rs)).
Proof.
  revert w; induction rs as [|r rs IH]; intros w Hinv; simpl; [exact Hinv|].
  apply IH, handle_preserves, Hinv.
Qed.

Lemma post_existing_in_place (w : World) (pid : string) (q : option num) (i : oid) (c : CartItem) :
  cast_oid pid = Some i ->
  List.find (fun c => N.eqb (c_product c) i) (cart (db w)) = Some c ->
  map c_id (cart (db (snd (run (post_cart (Some pid) q) w)))) = map c_id (cart (db w)) /\
  map c_product (cart (db (snd (run (post_cart (Some pid) q) w)))) = map c_product (cart (db w)).
Proof.
  destruct w as [d fs]; simpl. intros Hc Hf.
  unfold post_cart. destruct q as [q|]; [|auto].
  destruct (negb (str_truthy pid) || negb (num_truthy q) || fltb q fone); [auto|].
  unfold_prog. run_cases; try (split; reflexivity).
  all: split; [apply set_quantity_ids | apply set_quantity_products].
Qed.

(** a catalogue of one product and an empty cart *)
Definition catalogue_only : Db :=
  mkDb [mkProduct 1 "Classic Vibe Tee" (of_ratio false 2500 100) ""] [] 2 0.

(** two POST /api/cart requests for product 1, interleaved: both look the
    product up in the cart before either saves *)
Definition two_concurrent_adds : list (Prog Resp) * World :=
  run_sched [0; 1; 0; 1; 0; 1; 0; 1; 0; 1]%nat
            [post_cart (Some (oid_hex 1)) (Some fone); post_cart (Some (oid_hex 1)) (Some fone)]
            (reliable catalogue_only).

(** ** Removal *)

Lemma remove_first_absent (i : oid) (l : list CartItem) :
  Forall (fun c => c_id c <> i) l -> remove_first i l = (None, l).
Proof.
  induction l as [|c l IH]; simpl; [reflexivity|].
  intros Hf. inversion Hf as [|? ? Hc Hl]; subst.
  unfold has_cart_id. destruct (N.eqb_spec (c_id c) i); [contradiction|].
  rewrite IH by exact Hl. reflexivity.
Qed.

Lemma remove_first_gone (i : oid) (l : list CartItem) :
  List.NoDup (map c_id l) -> Forall (fun c => c_id c <> i) (snd (remove_first i l)).
Proof.
  induction l as [|c l IH]; simpl; [constructor|].
  intros Hnd. apply List.NoDup_cons_iff in Hnd as [Hn Hnd].
  unfold has_cart_id. destruct (N.eqb_spec (c_id c) i) as [<-|Hne]; simpl.
  - apply List.Forall_forall. intros x Hx Heq. apply Hn. rewrite <- Heq. apply in_map, Hx.
  - destruct (remove_first i l) as [r l''] eqn:E; simpl in *. constructor; [exact Hne|]. auto.
Qed.

Lemma run_delete_item (d : Db) (s : string) :
  run (delete_item s) (reliable d) =
  match cast_oid s with
  | None => (inl (msg 500 "Server error while removing from cart."), reliable d)
  | Some i =>
      match remove_first i (cart d) with
      | (None, l) => (inl (msg 404 "Cart item not found."), reliable (mkDb (products d) l (fresh d) (clock d)))
      | (Some it, l) => (inl (mkResp 200 (BRemoved "Item removed from cart." it)),
                         reliable (mkDb (products d) l (fresh d) (clock d)))
      end
  end.
Proof.
  unfold delete_item, reliable. unfold_prog. cbn -[cast_oid].
  destruct (cast_oid s) as [i|]; [|reflexivity]. cbn.
  destruct (remove_first i (cart d)) as [[it|] l]; reflexivity.
Qed.

(** ** Adding to the cart *)

Definition find_product (i : oid) (l : list CartItem) : option CartItem :=
  List.find (fun c => N.eqb (c_product c) i) l.

Lemma post_cart_unfold (pid : string) (q : num) :
  SFleb fone q = true -> str_truthy pid = true ->
  post_cart (Some pid) (Some q) =
  catch
    (found ← call (CartFindOneByProduct pid);
     r ← match found with
         | Some cartItem =>
             let cartItem' := mkCartItem (c_id cartItem) (c_product cartItem) q in
             call (CartSave false cartItem');;
             mret (inl cartItem')
         | None =>
             product ← call (ProductFindById pid);
             match product with
             | None => mret (inr (msg 404 "Product not found."))
             | Some _ =>
                 cartItem ← call (NewCartItem pid q);
                 call (CartSave true cartItem);;
                 mret (inl cartItem)
             end
         end;
     match r with
     | inr early => mret early
     | inl cartItem =>
         populatedItem ← call (CartFindByIdPopulated (c_id cartItem));
         mret (mkResp 201 (BItem populatedItem))
     end)
    (fun _ => mret (msg 500 "Server error while adding to cart.")).
Proof.
  intros Hq Ht. destruct (ge1_passes_checks q Hq) as [Hz Hlt].
  unfold post_cart. rewrite Ht, Hz, Hlt. reflexivity.
Qed.

Ltac post_steps :=
  repeat (unfold exec, reliable in *; cbn -[cast_oid quantity_valid] in *;
          match goal with
          | H : ?x = _ |- context [?x] => rewrite H
          end).

Lemma run_post_found (d : Db) (pid : string) (q : num) (i : oid) (c : CartItem) :
  SFleb fone q = true -> cast_oid pid = Some i -> find_product i (cart d) = Some c ->
  run (post_cart (Some pid) (Some q)) (reliable d) =
  (inl (mkResp 201 (BItem (option_map (populate (products d))
        (List.find (has_cart_id (c_id c)) (set_quantity (c_id c) q (cart d)))))),
   reliable (mkDb (products d) (set_quantity (c_id c) q (cart d)) (fresh d) (clock d))).
Proof.
  intros Hq Hc Hf. unfold find_product in Hf.
  assert (Hin : existsb (has_cart_id (c_id c)) (cart d) = true).
  { apply existsb_exists. exists c. split; [eapply find_some; eauto | apply N.eqb_refl]. }
  assert (Hv : quantity_valid q = true) by exact Hq.
  rewrite post_cart_unfold by (auto; eapply cast_truthy; eauto).
  unfold_prog. post_steps. reflexivity.
Qed.

Lemma run_post_new (d : Db) (pid : string) (q : num) (i : oid) (p : Product) :
  SFleb fone q = true -> cast_oid pid = Some i -> find_product i (cart d) = None ->
  lookup_product (products d) i = Some p ->
  existsb (has_cart_id (fresh d)) (cart d) = false ->
  run (post_cart (Some pid) (Some q)) (reliable d) =
  (inl (mkResp 201 (BItem (option_map (populate (products d))
        (List.find (has_cart_id (fresh d)) (cart d ++ [mkCartItem (fresh d) i q]))))),
   reliable (mkDb (products d) (cart d ++ [mkCartItem (fresh d) i q]) (fresh d + 1) (clock d))).
Proof.
  intros Hq Hc Hf Hp Hfresh. unfold find_product in Hf.
  assert (Hv : quantity_valid q = true) by exact Hq.
  rewrite post_cart_unfold by (auto; eapply cast_truthy; eauto).
  unfold_prog. post_steps. reflexivity.
Qed.

Lemma run_post_no_product (d : Db) (pid : string) (q : num) (i : oid) :
  SFleb fone q = true -> cast_oid pid = Some i -> find_product i (cart d) = None ->
  lookup_product (products d) i = None ->
  run (post_cart (Some pid) (Some q)) (reliable d) =
  (inl (msg 404 "Product not found."), reliable d).
Proof.
  intros Hq Hc Hf Hp. unfold find_product in Hf.
  rewrite post_cart_unfold by (auto; eapply cast_truthy; eauto).
  unfold_prog. post_steps. reflexivity.
Qed.

Lemma run_post_malformed (d : Db) (pid : string) (q : num) :
  SFleb fone q = true -> str_truthy pid = true -> cast_oid pid = None ->
  run (post_cart (Some pid) (Some q)) (reliable d) =
  (inl (msg 500 "Server error while adding to cart."), reliable d).
Proof.
  intros Hq Ht Hc.
  rewrite post_cart_unfold by auto.
  unfold_prog. post_steps. reflexivity.
Qed.

Lemma lookup_product_id (ps : list Product) (j : oid) (p : Product) :
  lookup_product ps j = Some p -> p_id p = j.
Proof.
  unfold lookup_product. intros H. apply find_some in H as [_ H].
  now apply N.eqb_eq in H.
Qed.

Lemma item_for_populate (ps : list Product) (i : oid) (p : Product) (x : CartItem) :
  lookup_product ps i = Some p ->
  item_for i (populate ps x) = N.eqb (c_product x) i.
Proof.
  intros Hp. unfold item_for, populate; simpl.
  destruct (N.eqb_spec (c_product x) i) as [->|Hne].
  - rewrite Hp. apply N.eqb_eq, (lookup_product_id ps), Hp.
  - destruct (lookup_product ps (c_product x)) as [p'|] eqn:E; [|reflexivity].
    apply lookup_product_id in E. apply N.eqb_neq. congruence.
Qed.

Lemma filter_populate (ps : list Product) (i : oid) (p : Product) (l : list CartItem) :
  lookup_product ps i = Some p ->
  List.filter (item_for i) (map (populate ps) l) =
  map (populate ps) (List.filter (fun x => N.eqb (c_product x) i) l).
Proof.
  intros Hp. induction l as [|x l IH]; [reflexivity|]. simpl.
  rewrite (item_for_populate ps i p x Hp).
  destruct (N.eqb (c_product x) i); simpl; now rewrite IH.
Qed.

Lemma filter_product_absent (i : oid) (l : list CartItem) :
  find_product i l = None -> List.filter (fun x => N.eqb (c_product x) i) l = [].
Proof.
  unfold find_product. induction l as [|x l IH]; simpl; [reflexivity|].
  destruct (N.eqb (c_product x) i); [discriminate | exact IH].
Qed.

Lemma filter_product_not_in (i : oid) (l : list CartItem) :
  ~ In i (map c_product l) -> List.filter (fun x => N.eqb (c_product x) i) l = [].
Proof.
  induction l as [|x l IH]; simpl; [reflexivity|]. intros Hn.
  destruct (N.eqb_spec (c_product x) i); [tauto|]. apply IH. tauto.
Qed.

Lemma filter_set_quantity (i : oid) (q : num) (c : CartItem) (l : list CartItem) :
  List.NoDup (map c_id l) -> List.NoDup (map c_product l) ->
  find_product i l = Some c ->
  List.filter (fun x => N.eqb (c_product x) i) (set_quantity (c_id c) q l) =
  [mkCartItem (c_id c) i q].
Proof.
  unfold find_product. induction l as [|x l IH]; simpl; [discriminate|].
  intros Hids Hps Hf.
  apply List.NoDup_cons_iff in Hids as [Hidx Hids].
  apply List.NoDup_cons_iff in Hps as [Hpx Hps].
  destruct (N.eqb_spec (c_product x) i) as [Hx|Hx].
  - injection Hf as <-. unfold has_cart_id. rewrite N.eqb_refl. simpl.
    rewrite Hx, N.eqb_refl. f_equal.
    apply filter_product_not_in. rewrite <- Hx. exact Hpx.
  - assert (Hin : In c l) by (eapply find_some; eauto).
    unfold has_cart_id. destruct (N.eqb_spec (c_id x) (c_id c)) as [Heq|_].
    + exfalso. apply Hidx. rewrite Heq. apply in_map, Hin.
    + simpl. destruct (N.eqb_spec (c_product x) i); [contradiction|]. auto.
Qed.

Lemma find_set_quantity (i : oid) (q : num) (c : CartItem) (l : list CartItem) :
  List.NoDup (map c_id l) -> find_product i l = Some c ->
  find_product i (set_quantity (c_id c) q l) = Some (mkCartItem (c_id c) (c_product c) q) /\
  List.find (has_cart_id (c_id c)) (set_quantity (c_id c) q l) =
    Some (mkCartItem (c_id c) (c_product c) q).
Proof.
  unfold find_product. induction l as [|x l IH]; simpl; [discriminate|].
  intros Hids Hf. apply List.NoDup_cons_iff in Hids as [Hidx Hids].
  destruct (N.eqb_spec (c_product x) i) as [Hx|Hx].
  - injection Hf as <-. unfold has_cart_id. rewrite N.eqb_refl. simpl.
    rewrite Hx, N.eqb_refl, N.eqb_refl. split; reflexivity.
  - assert (Hin : In c l) by (eapply find_some; eauto).
    assert (Hne : (c_id x =? c_id c)%N = false).
    { apply N.eqb_neq. intros Heq. apply Hidx. rewrite Heq. apply in_map, Hin. }
    destruct (IH Hids Hf) as [H1 H2].
    unfold has_cart_id in *. rewrite Hne. simpl. rewrite Hne.
    destruct (N.eqb_spec (c_product x) i); [contradiction|]. split; assumption.
Qed.

Lemma find_appended (i : oid) (j : oid) (q : num) (l : list CartItem) :
  find_product i l = None -> (forall c, In c l -> c_id c <> j) ->
  find_product i (l ++ [mkCartItem j i q]) = Some (mkCartItem j i q) /\
  List.find (has_cart_id j) (l ++ [mkCartItem j i q]) = Some (mkCartItem j i q).
Proof.
  unfold find_product. induction l as [|x l IH]; simpl; intros Hf Hj.
  - unfold has_cart_id. simpl. rewrite !N.eqb_refl. split; reflexivity.
  - destruct (N.eqb (c_product x) i); [discriminate|].
    unfold has_cart_id at 1. destruct (N.eqb_spec (c_id x) j) as [E|_].
    + exfalso. exact (Hj x (or_introl eq_refl) E).
    + apply IH; [exact Hf | intros c Hc; apply Hj; right; exact Hc].
Qed.

Lemma ids_ok_fresh (d : Db) :
  ids_ok d -> (forall c, In c (cart d) -> c_id c <> fresh d) /\
              existsb (has_cart_id (fresh d)) (cart d) = false.
Proof.
  intros [_ Hlt].
  assert (H : forall c, In c (cart d) -> c_id c <> fresh d).
  { intros c Hc E. rewrite List.Forall_forall in Hlt. specialize (Hlt c Hc). lia. }
  split; [exact H|].
  apply not_true_is_false. intros Hex. apply existsb_exists in Hex as (c & Hc & Hid).
  apply N.eqb_eq in Hid. exact (H c Hc Hid).
Qed.

(** C2: for a product that resolves and a quantity of at least 1, POST
    /api/cart then GET /api/cart shows exactly one line item for the product,
    with exactly the quantity posted (overwritten, not added). *)
Theorem add_then_get_exact_quantity (d : Db) (pid : string) (i : oid) (p : Product) (q : num)
  (Hcast : cast_oid pid = Some i) (Hp : lookup_product (products d) i = Some p)
  (Hq : SFleb fone q = true) (Hinv : one_item_per_product d) (Hids : ids_ok d) :
  exists items total,
    fst (run get_cart (snd (run (post_cart (Some pid) (Some q)) (reliable d)))) =
      inl (mkResp 200 (BCart items total)) /\
    exists it, List.filter (item_for i) items = [it] /\ pi_quantity it = q.
Proof.
  destruct (find_product i (cart d)) as [c|] eqn:Hf.
  - rewrite (run_post_found d pid q i c Hq Hcast Hf). simpl snd. rewrite run_get_cart.
    do 2 eexists. split; [reflexivity|].
    exists (populate (products d) (mkCartItem (c_id c) i q)). split; [|reflexivity].
    simpl. rewrite (filter_populate _ i p _ Hp).
    rewrite (filter_set_quantity i q c); [reflexivity | apply Hids | exact Hinv | exact Hf].
  - destruct (ids_ok_fresh d Hids) as [_ Hex].
    rewrite (run_post_new d pid q i p Hq Hcast Hf Hp Hex). simpl snd. rewrite run_get_cart.
    do 2 eexists. split; [reflexivity|].
    exists (populate (products d) (mkCartItem (fresh d) i q)). split; [|reflexivity].
    simpl. rewrite (filter_populate _ i p _ Hp), List.filter_app, (filter_product_absent i _ Hf).
    simpl. rewrite N.eqb_refl. reflexivity.
Qed.

Definition tee : Product := mkProduct 1 "Classic Vibe Tee" (of_ratio false 2500 100) "".

Lemma add_then_get_exact_quantity_witness :
  cast_oid (oid_hex 1) = Some 1%N /\
  find_product 1 (cart one_mug) = Some (mkCartItem 2 1 fone) /\
  exists items total,
    fst (run get_cart (snd (run (post_cart (Some (oid_hex 1)) (Some (of_ratio false 3 1)))
                                 (reliable one_mug)))) =
      inl (mkResp 200 (BCart items total)) /\
    exists it, List.filter (item_for 1) items = [it] /\ pi_quantity it = of_ratio false 3 1.
Proof.
  split; [vm_compute; reflexivity|]. split; [reflexivity|].
  apply (add_then_get_exact_quantity one_mug (oid_hex 1) 1
           (mkProduct 1 "Aesthetic Vibe Mug" (of_ratio false 1299 100) "") (of_ratio false 3 1)).
  - vm_compute. reflexivity.
  - reflexivity.
  - vm_compute. reflexivity.
  - constructor; [simpl; tauto | constructor].
  - split; [constructor; [simpl; tauto | constructor] | constructor; [simpl; lia | constructor]].
Defined.

(** [1.5] *)
Definition one_and_half : num := of_ratio false 3 2.

(** C10: POST /api/cart checks no integrality: every quantity of at least 1,
    fractional ones included, is accepted (201) and stored as it is. *)
Theorem post_cart_stores_any_quantity (d : Db) (pid : string) (i : oid) (p : Product) (q : num)
  (Hcast : cast_oid pid = Some i) (Hp : lookup_product (products d) i = Some p)
  (Hq : SFleb fone q = true) (Hids : ids_ok d) :
  exists it,
    fst (run (post_cart (Some pid) (Some q)) (reliable d)) = inl (mkResp 201 (BItem (Some it))) /\
    pi_quantity it = q /\
    exists c, find_product i (cart (db (snd (run (post_cart (Some pid) (Some q)) (reliable d))))) = Some c /\
              c_quantity c = q.
Proof.
  destruct (find_product i (cart d)) as [c|] eqn:Hf.
  - rewrite (run_post_found d pid q i c Hq Hcast Hf).
    destruct (find_set_quantity i q c (cart d) (proj1 Hids) Hf) as [H1 H2].
    simpl. rewrite H2. eexists. split; [reflexivity|]. split; [reflexivity|].
    eexists. split; [exact H1 | reflexivity].
  - destruct (ids_ok_fresh d Hids) as [Hj Hex].
    rewrite (run_post_new d pid q i p Hq Hcast Hf Hp Hex).
    destruct (find_appended i (fresh d) q (cart d) Hf Hj) as [H1 H2].
    simpl. rewrite H2. eexists. split; [reflexivity|]. split; [reflexivity|].
    eexists. split; [exact H1 | reflexivity].
Qed.

Lemma post_cart_stores_any_quantity_witness :
  SFleb fone one_and_half = true /\
  exists it,
    fst (run (post_cart (Some (oid_hex 1)) (Some one_and_half)) (reliable catalogue_only)) =
      inl (mkResp 201 (BItem (Some it))) /\
    pi_quantity it = one_and_half /\
    exists c, find_product 1 (cart (db (snd (run (post_cart (Some (oid_hex 1)) (Some one_and_half))
                                                 (reliable catalogue_only))))) = Some c /\
              c_quantity c = one_and_half.
Proof.
  split; [vm_compute; reflexivity|].
  apply (post_cart_stores_any_quantity catalogue_only (oid_hex 1) 1 tee one_and_half).
  - vm_compute. reflexivity.
  - reflexivity.
  - vm_compute. reflexivity.
  - split; constructor.
Defined.

(** a cart whose line item points to a product missing from the catalogue *)
Definition dangling : Db := mkDb [] [mkCartItem 2 1 fone] 3 0.

Definition two : num := of_ratio false 2 1.

(** C5 as stated fails: the product is looked up only when no line item for
    it exists; updating a line item whose product does not resolve succeeds. *)
Lemma post_existing_skips_product_check :
  cast_oid (oid_hex 1) = Some 1%N /\ lookup_product (products dangling) 1 = None /\
  exists it,
    fst (run (post_cart (Some (oid_hex 1)) (Some two)) (reliable dangling)) =
      inl (mkResp 201 (BItem it)).
Proof.
  split; [vm_compute; reflexivity|]. split; [reflexivity|].
  eexists. vm_compute. reflexivity.
Qed.

(** C5, as the code does it: a missing or empty productId, or a missing
    quantity or one below 1, is a ValidationError (400) and the store is not
    touched; a productId that is not an ObjectId is a server error (500); a
    productId with no line item and no product is NotFound (404); a productId
    with a line item is updated (201) without looking the product up. *)
Theorem post_cart_errors (d : Db) (productId : option string) (quantity : option num) :
  ((productId = None \/ productId = Some "" \/ quantity = None \/
    (exists x, quantity = Some x /\ fltb x fone = true)) ->
   run (post_cart productId quantity) (reliable d) = (inl invalid_input, reliable d)) /\
  (forall pid q, productId = Some pid -> quantity = Some q -> SFleb fone q = true ->
     match cast_oid pid with
     | None =>
         pid <> "" ->
         run (post_cart productId quantity) (reliable d) =
           (inl (msg 500 "Server error while adding to cart."), reliable d)
     | Some i =>
         match find_product i (cart d) with
         | None =>
             lookup_product (products d) i = None ->
             run (post_cart productId quantity) (reliable d) =
               (inl (msg 404 "Product not found."), reliable d)
         | Some c =>
             exists it,
               fst (run (post_cart productId quantity) (reliable d)) = inl (mkResp 201 (BItem it)) /\
               cart (db (snd (run (post_cart productId quantity) (reliable d)))) =
                 set_quantity (c_id c) q (cart d)
         end
     end).
Proof.
  split.
  - intros [->|[->|[->|(x & -> & Hlt)]]]; [reflexivity | destruct quantity; reflexivity | |].
    + destruct productId; reflexivity.
    + destruct productId as [pid|]; [|reflexivity].
      unfold post_cart. rewrite Hlt, orb_true_r. reflexivity.
  - intros pid q -> -> Hq.
    destruct (cast_oid pid) as [i|] eqn:Hc.
    + destruct (find_product i (cart d)) as [c|] eqn:Hf.
      * rewrite (run_post_found d pid q i c Hq Hc Hf). eexists. split; reflexivity.
      * intros Hp. apply (run_post_no_product d pid q i Hq Hc Hf Hp).
    + intros Hne. apply (run_post_malformed d pid q Hq); [|exact Hc].
      destruct pid; [contradiction | reflexivity].
Qed.

(** ** One line item per product *)

(** C6 as stated fails under concurrent requests: two POST /api/cart for the
    same product, interleaved at their awaits, both find no line item and
    both create one. *)
Lemma concurrent_adds_break_one_item_per_product :
  one_item_per_product catalogue_only /\
  ~ one_item_per_product (db (snd two_concurrent_adds)).
Proof.
  split; [constructor|].
  unfold one_item_per_product. vm_compute. intros H.
  apply List.NoDup_cons_iff in H as [Hn _]. apply Hn. left. reflexivity.
Qed.

(** C6, for requests served one at a time (store failures allowed): every
    request keeps at most one line item per product, and posting a product
    that has a line item changes no line item's id or product (the item is
    updated in place, nothing is appended). *)
Theorem one_item_per_product_sequential (w : World) (Hinv : one_item_per_product (db w)) :
  (forall rs, one_item_per_product (db (serve w rs))) /\
  (forall pid q i c,
     cast_oid pid = Some i -> find_product i (cart (db w)) = Some c ->
     map c_id (cart (db (serve w [PostCart (Some pid) q]))) = map c_id (cart (db w)) /\
     map c_product (cart (db (serve w [PostCart (Some pid) q]))) = map c_product (cart (db w))).
Proof.
  split.
  - intros rs. apply serve_preserves, Hinv.
  - intros pid q i c Hc Hf. simpl. apply (post_existing_in_place w pid q i c Hc Hf).
Qed.

Lemma one_item_per_product_sequential_witness :
  one_item_per_product (db (reliable one_mug)) /\
  one_item_per_product (db (serve (reliable one_mug)
                                  [PostCart (Some (oid_hex 1)) (Some two); PostCheckout])).
Proof.
  assert (Hinv : one_item_per_product (db (reliable one_mug))).
  { constructor; [simpl; tauto | constructor]. }
  split; [exact Hinv|].
  apply (proj1 (one_item_per_product_sequential (reliable one_mug) Hinv)).
Defined.

(** ** Removal *)

(** C7 as stated fails: an id that is not an ObjectId names no line item, yet
    DELETE answers a server error (500), not NotFound (404). *)
Lemma delete_malformed_id_not_404 :
  Forall (fun c => oid_hex (c_id c) <> "abc") (cart one_mug) /\
  fst (run (delete_item "abc") (reliable one_mug)) =
    inl (msg 500 "Server error while removing from cart.").
Proof.
  split; [|reflexivity].
  constructor; [|constructor]. vm_compute. discriminate.
Qed.

(** C7, as the code does it: for an ObjectId string, GET /api/cart after
    DELETE lists no line item with that id, and an id with no line item is
    NotFound (404) with the cart unchanged; a string that is not an ObjectId
    is a server error (500), the cart unchanged. *)
Theorem delete_item_spec (d : Db) (s : string) (Hids : List.NoDup (map c_id (cart d))) :
  match cast_oid s with
  | Some i =>
      (exists items total,
         fst (run get_cart (snd (run (delete_item s) (reliable d)))) =
           inl (mkResp 200 (BCart items total)) /\
         Forall (fun it => pi_id it <> i) items) /\
      (Forall (fun c => c_id c <> i) (cart d) ->
         run (delete_item s) (reliable d) = (inl (msg 404 "Cart item not found."), reliable d))
  | None =>
      run (delete_item s) (reliable d) =
        (inl (msg 500 "Server error while removing from cart."), reliable d)
  end.
Proof.
  rewrite run_delete_item. destruct (cast_oid s) as [i|]; [|reflexivity].
  split.
  - pose proof (remove_first_gone i (cart d) Hids) as Hgone.
    destruct (remove_first i (cart d)) as [r l] eqn:E; simpl in Hgone.
    exists (map (populate (products d)) l), (round2 (cart_total (map (populate (products d)) l))).
    split; [destruct r; reflexivity|].
    apply Forall_map. eapply Forall_impl; [exact Hgone|]. intros c Hc. exact Hc.
  - intros Hnone. rewrite (remove_first_absent i (cart d) Hnone).
    destruct d; reflexivity.
Qed.

Lemma delete_item_spec_witness :
  List.NoDup (map c_id (cart one_mug)) /\
  (exists items total,
     fst (run get_cart (snd (run (delete_item (oid_hex 2)) (reliable one_mug)))) =
       inl (mkResp 200 (BCart items total)) /\
     Forall (fun it => pi_id it <> 2%N) items) /\
  (Forall (fun c => c_id c <> 2%N) (cart one_mug) ->
     run (delete_item (oid_hex 2)) (reliable one_mug) =
       (inl (msg 404 "Cart item not found."), reliable one_mug)).
Proof.
  assert (Hids : List.NoDup (map c_id (cart one_mug))).
  { constructor; [simpl; tauto | constructor]. }
  split; [exact Hids|].
  exact (delete_item_spec one_mug (oid_hex 2) Hids).
Defined.

(** ** Further properties of the server *)

Arguments oid_hex : simpl never.

Lemma hex_digit_char (d : N) : (d < 16)%N -> hex_digit (hex_char d) = Some d.
Proof.
  intros H.
  assert (d = 0 \/ d = 1 \/ d = 2 \/ d = 3 \/ d = 4 \/ d = 5 \/ d = 6 \/ d = 7 \/
          d = 8 \/ d = 9 \/ d = 10 \/ d = 11 \/ d = 12 \/ d = 13 \/ d = 14 \/ d = 15)%N
    as Hd by lia.
  repeat destruct Hd as [->|Hd]; try reflexivity. subst; reflexivity.
Qed.
Lemma parse_hex_digits (k : nat) (n a : N) (acc : string) :
  parse_hex (hex_digits k n acc) a = parse_hex acc (a * 16 ^ N.of_nat k + n mod 16 ^ N.of_nat k)%N.
Proof.
  revert n a acc; induction k as [|k IH]; intros n a acc; simpl hex_digits.
  - simpl. f_equal. rewrite N.mod_1_r. lia.
  - rewrite IH. simpl parse_hex. rewrite hex_digit_char by (apply N.mod_lt; lia).
    f_equal.
    rewrite Nat2N.inj_succ, N.pow_succ_r'.
    rewrite (N.Div0.mod_mul_r n 16 (16 ^ N.of_nat k)). lia.
Qed.
Lemma hex_digits_length (k : nat) (n : N) (acc : string) :
  String.length (hex_digits k n acc) = (k + String.length acc)%nat.
Proof.
  revert n acc; induction k as [|k IH]; intros n acc; simpl; [reflexivity|].
  rewrite IH. simpl. lia.
Qed.
Lemma cast_oid_hex (n : N) : (n < 2 ^ 96)%N -> cast_oid (oid_hex n) = Some n.
Proof.
  intros Hn. unfold cast_oid, oid_hex. rewrite hex_digits_length. simpl Nat.eqb. cbv iota.
  rewrite parse_hex_digits. simpl parse_hex. f_equal.
  rewrite N.mod_small; [lia|]. exact Hn.
Qed.
(** X1: an ObjectId's string form ([toString()], as JSON sends it) is 24
    characters long and casts back to the same ObjectId. *)
Theorem objectid_string_roundtrip (n : N) (Hn : (n < 2 ^ 96)%N) :
  cast_oid (oid_hex n) = Some n /\ String.length (oid_hex n) = 24%nat.
Proof.
  split; [apply cast_oid_hex, Hn|].
  unfold oid_hex. rewrite hex_digits_length. reflexivity.
Qed.
Lemma objectid_string_roundtrip_witness :
  (255 < 2 ^ 96)%N /\ cast_oid (oid_hex 255) = Some 255%N /\ String.length (oid_hex 255) = 24%nat.
Proof.
  split; [vm_compute; reflexivity|].
  apply (objectid_string_roundtrip 255). vm_compute. reflexivity.
Defined.

Lemma oid_hex_inj (a b : N) : (a < 2 ^ 96)%N -> (b < 2 ^ 96)%N -> oid_hex a = oid_hex b -> a = b.
Proof.
  intros Ha Hb E. apply cast_oid_hex in Ha. apply cast_oid_hex in Hb. congruence.
Qed.
Lemma handle_products (r : Request) (w : World) :
  products (db (snd (run (handle r) w))) = products (db w).
Proof.
  destruct w as [d fs].
  destruct r as [| |pid q|id|]; simpl handle;
    unfold get_products, get_cart, post_cart, delete_item, checkout; unfold_prog;
    [ | | destruct pid as [pid|]; [|reflexivity]; destruct q as [q|]; [|reflexivity];
          destruct (negb (str_truthy pid) || negb (num_truthy q) || fltb q fone); [reflexivity|]
      | | ];
    run_cases; reflexivity.
Qed.
(** X2: no request changes the product catalogue, whatever the store
    failures. *)
Theorem catalogue_read_only (w : World) (rs : list Request) :
  products (db (serve w rs)) = products (db w).
Proof.
  revert w; induction rs as [|r rs IH]; intros w; simpl; [reflexivity|].
  rewrite IH. apply handle_products.
Qed.
(** X3: GET /api/products and GET /api/cart never change the store; each
    answers what a working store answers, or its 500 message. *)
Theorem get_requests_read_only (w : World) :
  db (snd (run get_products w)) = db w /\
  (fst (run get_products w) = inl (mkResp 200 (BProducts (products (db w)))) \/
   fst (run get_products w) = inl (msg 500 "Server error while fetching products.")) /\
  db (snd (run get_cart w)) = db w /\
  (fst (run get_cart w) = fst (run get_cart (reliable (db w))) \/
   fst (run get_cart w) = inl (msg 500 "Server error while fetching cart.")).
Proof.
  destruct w as [d [|[] fs]]; unfold get_products, get_cart; unfold_prog; cbn;
    repeat split; auto.
Qed.
Lemma checkout_outcomes (w : World) :
  (exists order,
     fst (run checkout w) = inl (mkResp 200 (BReceipt true checkout_ok order)) /\
     o_items order = map order_line (map (populate (products (db w))) (cart (db w))) /\
     o_total order = round2 (cart_total (map (populate (products (db w))) (cart (db w)))) /\
     o_orderId order = fresh (db w) /\
     cart (db (snd (run checkout w))) = [] /\
     products (db (snd (run checkout w))) = products (db w)) \/
  (fst (run checkout w) = inl (msg 500 "Server error during checkout.") /\
   db (snd (run checkout w)) = db w).
Proof.
  destruct w as [d fs].
  destruct fs as [|[] [|[] fs]]; unfold checkout; unfold_prog; cbn;
    first [ right; split; reflexivity | left; eexists; repeat split ].
Qed.
(** X4: whatever the store failures, checkout answers either the receipt or
    its 500 message, never anything else; and it answers the receipt only
    after the cart has been emptied, with the lines, total and a fresh order
    id from the cart it read. *)
Theorem checkout_all_or_nothing (w : World) :
  (exists order,
     fst (run checkout w) = inl (mkResp 200 (BReceipt true checkout_ok order)) /\
     o_items order = map order_line (map (populate (products (db w))) (cart (db w))) /\
     o_total order = round2 (cart_total (map (populate (products (db w))) (cart (db w)))) /\
     o_orderId order = fresh (db w) /\
     cart (db (snd (run checkout w))) = [] /\
     products (db (snd (run checkout w))) = products (db w)) \/
  fst (run checkout w) = inl (msg 500 "Server error during checkout.").
Proof.
  destruct (checkout_outcomes w) as [H|[H _]]; [left; exact H | right; exact H].
Qed.
Lemma remove_first_none (i : oid) (l : list CartItem) (l' : list CartItem) :
  remove_first i l = (None, l') -> l' = l.
Proof.
  revert l'; induction l as [|c l IH]; intros l'; simpl; [congruence|].
  destruct (has_cart_id i c); [congruence|].
  destruct (remove_first i l) as [r l''] eqn:E. intros H; injection H as -> <-.
  f_equal. apply IH. reflexivity.
Qed.
Lemma remove_first_some (i : oid) (l : list CartItem) (it : CartItem) (l' : list CartItem) :
  remove_first i l = (Some it, l') -> In it l /\ c_id it = i.
Proof.
  revert l'; induction l as [|c l IH]; intros l'; simpl; [congruence|].
  unfold has_cart_id at 1. destruct (N.eqb_spec (c_id c) i) as [Hc|Hc].
  - intros H; injection H as -> _. auto.
  - destruct (remove_first i l) as [r l''] eqn:E. intros H; injection H as -> _.
    destruct (IH l'' eq_refl). auto.
Qed.
(** X5: whatever the store failures, DELETE /api/cart/:id answers its 500
    message, or 404 with the store unchanged, or 200 with the line item it
    removed, which was in the cart with that id; only that first item is
    removed. *)
Theorem delete_item_outcomes (w : World) (s : string) :
  fst (run (delete_item s) w) = inl (msg 500 "Server error while removing from cart.") \/
  (fst (run (delete_item s) w) = inl (msg 404 "Cart item not found.") /\
   db (snd (run (delete_item s) w)) = db w) \/
  (exists i it,
     cast_oid s = Some i /\ In it (cart (db w)) /\ c_id it = i /\
     fst (run (delete_item s) w) = inl (mkResp 200 (BRemoved "Item removed from cart." it)) /\
     db (snd (run (delete_item s) w)) =
       mkDb (products (db w)) (snd (remove_first i (cart (db w)))) (fresh (db w)) (clock (db w))).
Proof.
  destruct w as [[ps c f t] fs].
  assert (Hgen : forall fs',
    fst (run (delete_item s) (mkWorld (mkDb ps c f t) fs')) =
      fst (run (delete_item s) (reliable (mkDb ps c f t))) /\
    db (snd (run (delete_item s) (mkWorld (mkDb ps c f t) fs'))) =
      db (snd (run (delete_item s) (reliable (mkDb ps c f t)))) \/
    (fst (run (delete_item s) (mkWorld (mkDb ps c f t) fs')) =
       inl (msg 500 "Server error while removing from cart.") /\
     db (snd (run (delete_item s) (mkWorld (mkDb ps c f t) fs'))) = mkDb ps c f t)).
  { intros [|[] fs']; [left | right; split; reflexivity | left];
      unfold delete_item, reliable; unfold_prog; cbn -[cast_oid];
      destruct (cast_oid s) as [i|]; cbn; try destruct (remove_first i c) as [[?|] ?]; split; reflexivity. }
  destruct (Hgen fs) as [[-> ->]|H]; [|left; exact (proj1 H)].
  rewrite run_delete_item. simpl.
  destruct (cast_oid s) as [i|] eqn:Hc; [|left; auto].
  destruct (remove_first i c) as [[it|] l] eqn:E; simpl.
  - right; right. exists i, it. destruct (remove_first_some i c it l E).
    rewrite E. auto.
  - right; left. rewrite (remove_first_none i c l E). auto.
Qed.
(** X6: seedDatabase always resolves, never touches the cart, and changes
    nothing when the catalogue is not empty, whatever the store failures. *)
Theorem seed_never_rejects (w : World) :
  fst (run seedDatabase w) = inl tt /\
  cart (db (snd (run seedDatabase w))) = cart (db w) /\
  (products (db w) <> [] -> db (snd (run seedDatabase w)) = db w).
Proof.
  destruct w as [[ps c f t] fs].
  destruct fs as [|[] [|[] fs]]; destruct ps; unfold seedDatabase; unfold_prog; cbn;
    repeat split; congruence.
Qed.
(** X7: whatever the store failures, POST /api/cart leaves the catalogue as
    it is and either leaves the cart unchanged, or overwrites the quantity of
    the line item of the posted product with a quantity of at least 1, or
    appends one new line item for it. *)
Theorem post_cart_frame (w : World) (pid : option string) (q : option num) :
  products (db (snd (run (post_cart pid q) w))) = products (db w) /\
  (cart (db (snd (run (post_cart pid q) w))) = cart (db w) \/
   (exists s i c q', pid = Some s /\ q = Some q' /\ cast_oid s = Some i /\
      quantity_valid q' = true /\ find_product i (cart (db w)) = Some c /\
      cart (db (snd (run (post_cart pid q) w))) = set_quantity (c_id c) q' (cart (db w))) \/
   (exists s i q', pid = Some s /\ q = Some q' /\ cast_oid s = Some i /\
      quantity_valid q' = true /\ find_product i (cart (db w)) = None /\
      cart (db (snd (run (post_cart pid q) w))) = (cart (db w) ++ [mkCartItem (fresh (db w)) i q'])%list)).
Proof.
  split; [apply (handle_products (PostCart pid q))|].
  destruct w as [d fs]. unfold find_product. simpl db.
  unfold post_cart. destruct pid as [pid|]; [|left; reflexivity].
  destruct q as [q|]; [|left; reflexivity].
  destruct (negb (str_truthy pid) || negb (num_truthy q) || fltb q fone); [left; reflexivity|].
  unfold_prog. run_cases.
  all: repeat match goal with H : negb (quantity_valid _) = false |- _ => apply negb_false_iff in H end.
  all: first [ left; reflexivity
             | right; left; do 4 eexists; repeat split; first [eassumption | reflexivity]
             | right; right; do 3 eexists; repeat split; first [eassumption | reflexivity] ].
Qed.
(** X8: a 500 from POST /api/cart does not mean nothing was stored: when only
    the final read of the saved item fails, the update or the new line item
    is kept. *)
Theorem post_cart_500_after_save (d : Db) (pid : string) (i : oid) (q : num) (fs : list bool)
  (Hcast : cast_oid pid = Some i) (Hq : SFleb fone q = true) :
  (forall c, find_product i (cart d) = Some c ->
     run (post_cart (Some pid) (Some q)) (mkWorld d (false :: false :: true :: fs)) =
       (inl (msg 500 "Server error while adding to cart."),
        mkWorld (mkDb (products d) (set_quantity (c_id c) q (cart d)) (fresh d) (clock d)) fs)) /\
  (forall p, find_product i (cart d) = None -> lookup_product (products d) i = Some p ->
     ids_ok d ->
     run (post_cart (Some pid) (Some q)) (mkWorld d (false :: false :: false :: true :: fs)) =
       (inl (msg 500 "Server error while adding to cart."),
        mkWorld (mkDb (products d) (cart d ++ [mkCartItem (fresh d) i q])%list (fresh d + 1) (clock d)) fs)).
Proof.
  assert (Hv : quantity_valid q = true) by exact Hq.
  rewrite post_cart_unfold by (auto; eapply cast_truthy; eauto).
  split.
  - intros c Hf. unfold find_product in Hf.
    assert (Hin : existsb (has_cart_id (c_id c)) (cart d) = true).
    { apply existsb_exists. exists c. split; [eapply find_some; eauto | apply N.eqb_refl]. }
    unfold_prog. post_steps. reflexivity.
  - intros p Hf Hp Hids. unfold find_product in Hf.
    destruct (ids_ok_fresh d Hids) as [_ Hfresh].
    unfold_prog. post_steps. reflexivity.
Qed.
Lemma post_cart_500_after_save_witness :
  cast_oid (oid_hex 1) = Some 1%N /\
  (forall c, find_product 1 (cart catalogue_only) = Some c ->
     run (post_cart (Some (oid_hex 1)) (Some fone)) (mkWorld catalogue_only [false; false; true]) =
       (inl (msg 500 "Server error while adding to cart."),
        mkWorld (mkDb (products catalogue_only) (set_quantity (c_id c) fone (cart catalogue_only))
                      (fresh catalogue_only) (clock catalogue_only)) [])) /\
  (forall p, find_product 1 (cart catalogue_only) = None ->
     lookup_product (products catalogue_only) 1 = Some p -> ids_ok catalogue_only ->
     run (post_cart (Some (oid_hex 1)) (Some fone)) (mkWorld catalogue_only [false; false; false; true]) =
       (inl (msg 500 "Server error while adding to cart."),
        mkWorld (mkDb (products catalogue_only)
                      (cart catalogue_only ++ [mkCartItem (fresh catalogue_only) 1 fone])%list
                      (fresh catalogue_only + 1) (clock catalogue_only)) [])).
Proof.
  split; [vm_compute; reflexivity|].
  apply (post_cart_500_after_save catalogue_only (oid_hex 1) 1 fone []);
    vm_compute; reflexivity.
Defined.

Lemma remove_first_unique (i : oid) (c : CartItem) (l : list CartItem) :
  List.NoDup (map c_id l) -> In c l -> c_id c = i ->
  remove_first i l = (Some c, List.filter (fun x => negb (c_id x =? i)%N) l).
Proof.
  induction l as [|x l IH]; simpl; [tauto|].
  intros Hnd Hin Hc. apply List.NoDup_cons_iff in Hnd as [Hx Hnd].
  unfold has_cart_id at 1. destruct (N.eqb_spec (c_id x) i) as [Hxi|Hxi]; simpl.
  - assert (Hcx : c = x).
    { destruct Hin as [->|Hin]; [reflexivity|].
      exfalso. apply Hx. rewrite Hxi, <- Hc. apply in_map, Hin. }
    subst c. f_equal. symmetry. apply List.forallb_filter_id.
    apply forallb_forall. intros y Hy. apply negb_true_iff, N.eqb_neq.
    intros Hyi. apply Hx. rewrite Hxi, <- Hyi. apply in_map, Hy.
  - destruct Hin as [->|Hin]; [contradiction|].
    rewrite (IH Hnd Hin Hc). reflexivity.
Qed.
(** X10: deleting a line item by the id string GET /api/cart lists for it
    answers 200 with that item, and the cart loses exactly that item. *)
Theorem delete_listed_item (d : Db) (items : list PopItem) (total : num) (it : PopItem)
  (Hnd : List.NoDup (map c_id (cart d)))
  (Hbound : Forall (fun c => (c_id c < 2 ^ 96)%N) (cart d))
  (Hget : fst (run get_cart (reliable d)) = inl (mkResp 200 (BCart items total)))
  (Hin : In it items) :
  exists c,
    c_id c = pi_id it /\ c_quantity c = pi_quantity it /\
    run (delete_item (oid_hex (pi_id it))) (reliable d) =
      (inl (mkResp 200 (BRemoved "Item removed from cart." c)),
       reliable (mkDb (products d) (List.filter (fun x => negb (c_id x =? pi_id it)%N) (cart d))
                      (fresh d) (clock d))).
Proof.
  rewrite run_get_cart in Hget. simpl in Hget. injection Hget as <- _.
  apply in_map_iff in Hin as (c & <- & Hc).
  exists c. split; [reflexivity|]. split; [reflexivity|].
  rewrite run_delete_item. simpl pi_id.
  rewrite cast_oid_hex by (rewrite List.Forall_forall in Hbound; apply Hbound, Hc).
  rewrite (remove_first_unique (c_id c) c (cart d) Hnd Hc eq_refl). reflexivity.
Qed.
Lemma delete_listed_item_witness :
  fst (run get_cart (reliable one_mug)) =
    inl (mkResp 200 (BCart (map (populate (products one_mug)) (cart one_mug))
                           (round2 (cart_total (map (populate (products one_mug)) (cart one_mug)))))) /\
  exists c,
    c_id c = 2%N /\ c_quantity c = fone /\
    run (delete_item (oid_hex 2)) (reliable one_mug) =
      (inl (mkResp 200 (BRemoved "Item removed from cart." c)),
       reliable (mkDb (products one_mug) (List.filter (fun x => negb (c_id x =? 2)%N) (cart one_mug))
                      (fresh one_mug) (clock one_mug))).
Proof.
  split; [reflexivity|].
  apply (delete_listed_item one_mug (map (populate (products one_mug)) (cart one_mug))
           (round2 (cart_total (map (populate (products one_mug)) (cart one_mug))))
           (populate (products one_mug) (mkCartItem 2 1 fone))).
  - constructor; [simpl; tauto | constructor].
  - constructor; [vm_compute; reflexivity | constructor].
  - reflexivity.
  - left. reflexivity.
Defined.

(** ** The frontend against the server *)

Lemma find_by_product_id_populate (ps : list Product) (l : list CartItem) (i : oid) :
  (i < 2 ^ 96)%N -> Forall (fun p => (p_id p < 2 ^ 96)%N) ps ->
  Forall (fun x => lookup_product ps (c_product x) <> None) l ->
  find_by_product_id (oid_hex i) (map (populate ps) l) =
    Some (option_map (populate ps) (find_product i l)).
Proof.
  intros Hi Hb. unfold find_product. induction l as [|x l IH]; intros Hres; [reflexivity|].
  apply Forall_cons_1 in Hres as [Hx Hl].
  cbn [map find_by_product_id populate pi_product List.find].
  destruct (lookup_product ps (c_product x)) as [p'|] eqn:E; [|contradiction].
  pose proof (lookup_product_id ps _ p' E) as Hid.
  assert (Hp' : (p_id p' < 2 ^ 96)%N).
  { unfold lookup_product in E. apply find_some in E as [Hin _].
    rewrite List.Forall_forall in Hb. apply Hb, Hin. }
  destruct (String.eqb_spec (oid_hex (p_id p')) (oid_hex i)) as [Heq|Hne].
  - apply oid_hex_inj in Heq; [|exact Hp'|exact Hi].
    rewrite Hid in Heq. subst i. rewrite N.eqb_refl. reflexivity.
  - destruct (N.eqb_spec (c_product x) i) as [Hxi|_]; [congruence|]. apply IH, Hl.
Qed.
Lemma api_get_cart (w : World) :
  exists fs, api GetCart w = (Some (cart_view (db w)), mkWorld (db w) fs) \/
             api GetCart w = (None, mkWorld (db w) fs).
Proof. destruct w as [d [|[] fs]]; eexists; [left | right | left]; reflexivity. Qed.
Lemma cart_view_empty (d : Db) : cart d = [] -> cart_view d = BCart [] fzero.
Proof. unfold cart_view. intros ->. reflexivity. Qed.
Ltac refetch :=
  match goal with
  | |- context [api GetCart ?w] =>
      let fs := fresh "fs" in
      destruct (api_get_cart w) as [fs [-> | ->]]; simpl; [intros _; reflexivity | intros H; discriminate H]
  end.

(** X11: each frontend action that ends without an error leaves the cart the
    page shows equal to what GET /api/cart answers, whatever the store
    failures. *)
Theorem client_stays_in_sync (a : Action) (c : Client) (w : World) (Hs : in_sync c (db w)) :
  cl_error (fst (act a c w)) = None -> in_sync (fst (act a c w)) (db (snd (act a c w))).
Proof.
  unfold in_sync. destruct a as [|pid q|id q|id|]; simpl act.
  - unfold fetchInitialData.
    destruct (api GetProducts w) as [[ps|] w1]; (destruct (api_get_cart w1) as [fs [-> | ->]]);
      simpl; [intros _; reflexivity | intros H; discriminate H | intros H; discriminate H | intros H; discriminate H].
  - unfold handleAddToCart.
    destruct (cart_items (cl_cart c)) as [items|]; [|intros H; discriminate H].
    destruct (find_by_product_id pid items) as [e|]; [|intros H; discriminate H].
    destruct (api (PostCart (Some pid) _) w) as [[b|] w1]; [|intros H; discriminate H].
    refetch.
  - unfold handleUpdateQuantity, handleRemoveFromCart.
    destruct (fltb q fone).
    + destruct (api (DeleteCartItem id) w) as [[b|] w1]; [|intros H; discriminate H]. refetch.
    + destruct (cart_items (cl_cart c)) as [items|]; [|intros H; discriminate H].
      destruct (List.find _ items) as [it|]; [|intros _; exact Hs].
      destruct (pi_product it) as [p|]; [|intros H; discriminate H].
      destruct (api (PostCart _ _) w) as [[b|] w1]; [|intros H; discriminate H]. refetch.
  - unfold handleRemoveFromCart.
    destruct (api (DeleteCartItem id) w) as [[b|] w1]; [|intros H; discriminate H]. refetch.
  - unfold handleCheckoutSubmit, api. simpl handle.
    destruct (checkout_outcomes w) as [(order & Hr & _ & _ & _ & Hc & _)|[Hr _]].
    + destruct (run checkout w) as [r w1]. simpl in Hr, Hc. subst r. simpl.
      intros _. rewrite cart_view_empty by exact Hc. reflexivity.
    + destruct (run checkout w) as [r w1]. simpl in Hr. subst r. simpl.
      intros H; discriminate H.
Qed.
Lemma client_stays_in_sync_witness :
  cl_error (fst (act (AddToCart (oid_hex 1) fone)
                     (setCart (Some (cart_view one_mug)) initial_client) (reliable one_mug))) = None /\
  in_sync (fst (act (AddToCart (oid_hex 1) fone)
                    (setCart (Some (cart_view one_mug)) initial_client) (reliable one_mug)))
          (db (snd (act (AddToCart (oid_hex 1) fone)
                        (setCart (Some (cart_view one_mug)) initial_client) (reliable one_mug)))).
Proof.
  assert (He : cl_error (fst (act (AddToCart (oid_hex 1) fone)
                     (setCart (Some (cart_view one_mug)) initial_client) (reliable one_mug))) = None).
  { vm_compute. reflexivity. }
  split; [exact He|].
  apply (client_stays_in_sync (AddToCart (oid_hex 1) fone)
           (setCart (Some (cart_view one_mug)) initial_client) (reliable one_mug)); [reflexivity | exact He].
Defined.

(** X12: handleAddToCart adds to the quantity on the client. On a working
    store whose page shows the server's cart, where every line item's product
    is still in the catalogue, ids are unique and at most one line item shows
    each product, the product's line item ends with the shown quantity plus
    the added one (or the added one for a new item), the cart is refreshed and
    the sidebar opened. *)
Theorem add_to_cart_accumulates (c : Client) (d : Db) (p : Product) (q : num)
  (Hs : in_sync c d)
  (Hp : lookup_product (products d) (p_id p) = Some p)
  (Hbound : Forall (fun p => (p_id p < 2 ^ 96)%N) (products d))
  (Hres : Forall (fun x => lookup_product (products d) (c_product x) <> None) (cart d))
  (Hinv : one_item_per_product d) (Hids : ids_ok d)
  (Hq : SFleb fone (match find_product (p_id p) (cart d) with
                    | Some x => fadd (c_quantity x) q
                    | None => q
                    end) = true) :
  in_sync (fst (handleAddToCart (oid_hex (p_id p)) q c (reliable d)))
          (db (snd (handleAddToCart (oid_hex (p_id p)) q c (reliable d)))) /\
  cl_cartOpen (fst (handleAddToCart (oid_hex (p_id p)) q c (reliable d))) = true /\
  exists x,
    find_product (p_id p) (cart (db (snd (handleAddToCart (oid_hex (p_id p)) q c (reliable d))))) = Some x /\
    c_quantity x = match find_product (p_id p) (cart d) with
                   | Some x0 => fadd (c_quantity x0) q
                   | None => q
                   end.
Proof.
  assert (Hi : (p_id p < 2 ^ 96)%N).
  { rewrite List.Forall_forall in Hbound. apply Hbound.
    unfold lookup_product in Hp. apply find_some in Hp as [Hin _]. exact Hin. }
  assert (Hc : cast_oid (oid_hex (p_id p)) = Some (p_id p)) by (apply cast_oid_hex, Hi).
  destruct (find_product (p_id p) (cart d)) as [x0|] eqn:Hf.
  - set (d' := mkDb (products d) (set_quantity (c_id x0) (fadd (c_quantity x0) q) (cart d))
                    (fresh d) (clock d)).
    assert (E : handleAddToCart (oid_hex (p_id p)) q c (reliable d) =
                (setIsCartOpen true (setCart (Some (cart_view d')) c), reliable d')).
    { unfold handleAddToCart. rewrite Hs. unfold cart_view at 1. cbn [cart_items].
      rewrite (find_by_product_id_populate _ _ _ Hi Hbound Hres), Hf.
      cbn [option_map pi_quantity populate]. unfold api. cbn [handle].
      rewrite (run_post_found d _ _ (p_id p) x0 Hq Hc Hf). reflexivity. }
    rewrite E. split; [reflexivity|]. split; [reflexivity|].
    destruct (find_set_quantity (p_id p) (fadd (c_quantity x0) q) x0 (cart d) (proj1 Hids) Hf)
      as [H1 _].
    eexists. split; [exact H1 | reflexivity].
  - destruct (ids_ok_fresh d Hids) as [Hj Hex].
    set (d' := mkDb (products d) (cart d ++ [mkCartItem (fresh d) (p_id p) q])%list
                    (fresh d + 1) (clock d)).
    assert (E : handleAddToCart (oid_hex (p_id p)) q c (reliable d) =
                (setIsCartOpen true (setCart (Some (cart_view d')) c), reliable d')).
    { unfold handleAddToCart. rewrite Hs. unfold cart_view at 1. cbn [cart_items].
      rewrite (find_by_product_id_populate _ _ _ Hi Hbound Hres), Hf.
      cbn [option_map]. unfold api. cbn [handle].
      rewrite (run_post_new d _ _ (p_id p) p Hq Hc Hf Hp Hex). reflexivity. }
    rewrite E. split; [reflexivity|]. split; [reflexivity|].
    destruct (find_appended (p_id p) (fresh d) q (cart d) Hf Hj) as [H1 _].
    eexists. split; [exact H1 | reflexivity].
Qed.
(** the mug of [one_mug] *)
Definition mug : Product := mkProduct 1 "Aesthetic Vibe Mug" (of_ratio false 1299 100) "".

Lemma add_to_cart_accumulates_witness :
  find_product 1 (cart one_mug) = Some (mkCartItem 2 1 fone) /\
  SFleb fone (fadd fone fone) = true /\
  exists x,
    find_product 1 (cart (db (snd (handleAddToCart (oid_hex 1) fone
                                    (setCart (Some (cart_view one_mug)) initial_client)
                                    (reliable one_mug))))) = Some x /\
    c_quantity x = fadd fone fone.
Proof.
  split; [reflexivity|]. split; [vm_compute; reflexivity|].
  apply (add_to_cart_accumulates (setCart (Some (cart_view one_mug)) initial_client) one_mug mug fone).
  - reflexivity.
  - reflexivity.
  - constructor; [vm_compute; reflexivity | constructor].
  - constructor; [vm_compute; discriminate | constructor].
  - constructor; [simpl; tauto | constructor].
  - split; [constructor; [simpl; tauto | constructor] | constructor; [simpl; lia | constructor]].
  - vm_compute. reflexivity.
Defined.

(** X13: the minus button on a line item whose quantity minus 1 is below 1
    deletes the item on the server and shows the refreshed cart. *)
Theorem decrease_below_one_removes (c : Client) (d : Db) (it : PopItem)
  (Hnd : List.NoDup (map c_id (cart d)))
  (Hbound : Forall (fun x => (c_id x < 2 ^ 96)%N) (cart d))
  (Hin : In it (map (populate (products d)) (cart d)))
  (Hlt : fltb (SFsub prec emax (pi_quantity it) fone) fone = true) :
  decreaseItem it c (reliable d) =
    (setCart (Some (cart_view (mkDb (products d)
                                 (List.filter (fun x => negb (c_id x =? pi_id it)%N) (cart d))
                                 (fresh d) (clock d)))) c,
     reliable (mkDb (products d) (List.filter (fun x => negb (c_id x =? pi_id it)%N) (cart d))
                    (fresh d) (clock d))).
Proof.
  apply in_map_iff in Hin as (x & <- & Hx).
  unfold decreaseItem, handleUpdateQuantity. rewrite Hlt.
  unfold handleRemoveFromCart, api. cbn [handle pi_id populate].
  rewrite run_delete_item.
  rewrite cast_oid_hex by (rewrite List.Forall_forall in Hbound; apply Hbound, Hx).
  rewrite (remove_first_unique (c_id x) x (cart d) Hnd Hx eq_refl). reflexivity.
Qed.
Lemma decrease_below_one_removes_witness :
  fltb (SFsub prec emax fone fone) fone = true /\
  decreaseItem (populate (products one_mug) (mkCartItem 2 1 fone)) initial_client (reliable one_mug) =
    (setCart (Some (cart_view (mkDb (products one_mug)
                                 (List.filter (fun x => negb (c_id x =? 2)%N) (cart one_mug))
                                 (fresh one_mug) (clock one_mug)))) initial_client,
     reliable (mkDb (products one_mug) (List.filter (fun x => negb (c_id x =? 2)%N) (cart one_mug))
                    (fresh one_mug) (clock one_mug))).
Proof.
  split; [vm_compute; reflexivity|].
  apply (decrease_below_one_removes initial_client one_mug
           (populate (products one_mug) (mkCartItem 2 1 fone))).
  - constructor; [simpl; tauto | constructor].
  - constructor; [vm_compute; reflexivity | constructor].
  - left. reflexivity.
  - vm_compute. reflexivity.
Defined.

Lemma find_by_product_id_null (pid : string) (pre post : list PopItem) (it : PopItem) :
  pi_product it = None ->
  Forall (fun x => forall p, pi_product x = Some p -> oid_hex (p_id p) <> pid) pre ->
  find_by_product_id pid (pre ++ it :: post) = None.
Proof.
  intros Hnull. induction pre as [|x pre IH]; intros Hpre; cbn [app find_by_product_id].
  - rewrite Hnull. reflexivity.
  - apply Forall_cons_1 in Hpre as [Hx Hpre].
    destruct (pi_product x) as [p|]; [|reflexivity].
    destruct (String.eqb_spec (oid_hex (p_id p)) pid) as [E|_].
    + exfalso. exact (Hx p eq_refl E).
    + apply IH, Hpre.
Qed.
(** X14: when the shown cart lists an item whose product no longer exists
    before any item of the product being added, handleAddToCart sends no
    request and shows "Failed to add item to cart.". *)
Theorem add_to_cart_blocked_by_missing_product (c : Client) (w : World) (pid : string) (q : num)
  (pre post : list PopItem) (it : PopItem) (total : num)
  (Hc : cl_cart c = Some (BCart (pre ++ it :: post)%list total))
  (Hnull : pi_product it = None)
  (Hpre : Forall (fun x => forall p, pi_product x = Some p -> oid_hex (p_id p) <> pid) pre) :
  handleAddToCart pid q c w = (setError (Some "Failed to add item to cart.") c, w).
Proof.
  unfold handleAddToCart. rewrite Hc. cbn [cart_items].
  rewrite (find_by_product_id_null pid pre post it Hnull Hpre). reflexivity.
Qed.
Lemma add_to_cart_blocked_by_missing_product_witness :
  cl_cart (setCart (Some (BCart [mkPopItem 2 None fone] fzero)) initial_client) =
    Some (BCart [mkPopItem 2 None fone] fzero) /\
  handleAddToCart (oid_hex 1) fone (setCart (Some (BCart [mkPopItem 2 None fone] fzero)) initial_client)
                  (reliable dangling) =
    (setError (Some "Failed to add item to cart.")
              (setCart (Some (BCart [mkPopItem 2 None fone] fzero)) initial_client),
     reliable dangling).
Proof.
  split; [reflexivity|].
  apply (add_to_cart_blocked_by_missing_product _ _ _ _ [] [] (mkPopItem 2 None fone) fzero).
  - reflexivity.
  - reflexivity.
  - constructor.
Defined.

(** X15: a successful checkout from the modal empties the cart on the server
    and on the page, closes the modal and alerts the new order id. *)
Theorem checkout_submit_clears_both (c : Client) (d : Db) :
  handleCheckoutSubmit c (reliable d) =
    (alert ("Checkout Successful! Order ID: " ++ oid_hex (fresh d))
           (setCart (Some (BCart [] fzero)) (setIsCheckoutModalOpen false c)),
     reliable (mkDb (products d) [] (fresh d + 1) (clock d))).
Proof.
  unfold handleCheckoutSubmit, api. cbn [handle]. rewrite run_checkout. reflexivity.
Qed.
